(** * pp.py: the Bedrock model request adapter and the SNS notifier

    A shallow embedding of [BedrockConnector.invoke_model], its three body
    builders and three response parsers, and of [send_sns_message].

    Python values are an inductive type, exceptions are a sum, and the
    observable effects of a call (lines printed, requests handed to the
    external clients) are collected in a trace by a small writer/error
    monad. *)

From Stdlib Require Import String Ascii List ZArith Bool Lia.
From Stdlib Require Import PrimFloat.
Import ListNotations.

Set Warnings "-inexact-float,-register-all".
Set Implicit Arguments.

Open Scope string_scope.

(** ** Python values *)

(** The values that travel through the adapter: what the caller passes as
    generation parameters, what [json.dumps] accepts and what [json.loads]
    yields.  A dict is kept as its items in insertion order. *)
Inductive pyval : Type :=
| PNone
| PBool (b : bool)
| PInt (n : Z)
| PFloat (x : float)
| PStr (s : string)
| PList (items : list pyval)
| PDict (items : list (string * pyval)).

(** The exceptions that can reach the code under study.
    [ClientError] stands for [botocore.exceptions.ClientError] and the
    per-service classes derived from it; [NoCredentialsError] is the other
    class the module imports from [botocore.exceptions] and is not derived
    from [ClientError]; [JSONDecodeError], [UnicodeDecodeError] and
    [RecursionError] are what [json.loads] raises; [OtherError] is any
    further class derived from [Exception] that is not a [ClientError].
    [KeyboardInterrupt] and [SystemExit] derive from [BaseException]
    and not from [Exception]. *)
Inductive exn : Type :=
| ClientError (msg : string)
| NoCredentialsError
| ValueError (msg : string)
| JSONDecodeError (msg : string)
| UnicodeDecodeError (msg : string)
| RecursionError (msg : string)
| TypeError (msg : string)
| KeyError (key : pyval)
| IndexError (msg : string)
| AttributeError (msg : string)
| OtherError (cls msg : string)
| KeyboardInterrupt
| SystemExit.

Definition result (A : Type) : Type := (exn + A)%type.

(** [isinstance(e, ClientError)] *)
Definition is_ClientError (e : exn) : bool :=
  match e with
  | ClientError _ => true
  | _ => false
  end.

(** [isinstance(e, Exception)] *)
Definition is_Exception (e : exn) : bool :=
  match e with
  | KeyboardInterrupt | SystemExit => false
  | _ => true
  end.

(** ** Strings *)

(** The line feed of the escape [\n]. *)
Definition LF : string := String "010"%char EmptyString.

(** [needle in hay] on [str]: [needle] occurs in [hay] as a contiguous
    run of characters. *)
Fixpoint str_in (needle hay : string) : bool :=
  match hay with
  | EmptyString => prefix needle EmptyString
  | String _ rest => prefix needle hay || str_in needle rest
  end.

(** The same, as the spec words it: [hay] contains [needle]. *)
Definition Contains (hay needle : string) : Prop :=
  exists pre post : string, hay = pre ++ needle ++ post.

(** ** Subscripts and [dict.get] *)

Fixpoint dict_get (items : list (string * pyval)) (k : string) : option pyval :=
  match items with
  | [] => None
  | (k', v) :: rest => if String.eqb k' k then Some v else dict_get rest k
  end.

(** [type(v).__name__] *)
Definition type_name (v : pyval) : string :=
  match v with
  | PNone => "NoneType"
  | PBool _ => "bool"
  | PInt _ => "int"
  | PFloat _ => "float"
  | PStr _ => "str"
  | PList _ => "list"
  | PDict _ => "dict"
  end.

(** Position [i] of a sequence of length [n], with Python's negative
    indices; [None] when out of range. *)
Definition seq_pos (n : nat) (i : Z) : option nat :=
  let len := Z.of_nat n in
  let j := if (i <? 0)%Z then (i + len)%Z else i in
  if (0 <=? j)%Z && (j <? len)%Z then Some (Z.to_nat j) else None.

(** [v[k]] with a [str] key. *)
Definition getitem_key (v : pyval) (k : string) : result pyval :=
  match v with
  | PDict items =>
      match dict_get items k with
      | Some x => inr x
      | None => inl (KeyError (PStr k))
      end
  | PList _ => inl (TypeError "list indices must be integers or slices, not str")
  | PStr _ => inl (TypeError "string indices must be integers, not 'str'")
  | _ => inl (TypeError ("'" ++ type_name v ++ "' object is not subscriptable"))
  end.

(** [v[i]] with an [int] index. *)
Definition getitem_index (v : pyval) (i : Z) : result pyval :=
  match v with
  | PList items =>
      match seq_pos (List.length items) i with
      | Some j =>
          match nth_error items j with
          | Some x => inr x
          | None => inl (IndexError "list index out of range")
          end
      | None => inl (IndexError "list index out of range")
      end
  | PStr s =>
      match seq_pos (String.length s) i with
      | Some j =>
          match String.get j s with
          | Some c => inr (PStr (String c EmptyString))
          | None => inl (IndexError "string index out of range")
          end
      | None => inl (IndexError "string index out of range")
      end
  | PDict _ => inl (KeyError (PInt i))
  | _ => inl (TypeError ("'" ++ type_name v ++ "' object is not subscriptable"))
  end.

(** [v.get(k, default)] *)
Definition py_get (v : pyval) (k : string) (default : pyval) : result pyval :=
  match v with
  | PDict items =>
      match dict_get items k with
      | Some x => inr x
      | None => inr default
      end
  | _ => inl (AttributeError ("'" ++ type_name v ++ "' object has no attribute 'get'"))
  end.

(** ** JSON text *)

(** How [json.loads] rejects a payload: bytes that are not UTF-8, text
    that is not JSON (with the message that names the defect and its
    position), a document nested too deeply. *)
Inductive decode_fault : Type :=
| NotUTF8 (msg : string)
| NotJSON (msg : string)
| TooDeep (msg : string).

(** The exception [json.loads] raises for a fault. *)
Definition decode_error (fault : decode_fault) : exn :=
  match fault with
  | NotUTF8 msg => UnicodeDecodeError msg
  | NotJSON msg => JSONDecodeError msg
  | TooDeep msg => RecursionError msg
  end.

(** The adapter produces JSON text with [json.dumps] and consumes it with
    [json.loads], and never looks at the characters in between.  A payload
    is kept as what [json.loads] makes of it: the document it denotes, or
    the fault for which it is rejected. *)
Inductive json_text : Type :=
| Encoded (doc : pyval)
| Malformed (fault : decode_fault).

Definition json_dumps (v : pyval) : json_text := Encoded v.

Definition json_loads (t : json_text) : result pyval :=
  match t with
  | Encoded doc => inr doc
  | Malformed fault => inl (decode_error fault)
  end.

(** The document a JSON text denotes, and the value under a path of keys. *)
Definition document (t : json_text) : option pyval :=
  match t with
  | Encoded doc => Some doc
  | Malformed _ => None
  end.

Fixpoint at_path (path : list string) (v : pyval) : option pyval :=
  match path with
  | [] => Some v
  | k :: rest =>
      match v with
      | PDict items =>
          match dict_get items k with
          | Some x => at_path rest x
          | None => None
          end
      | _ => None
      end
  end.

Definition field (path : list string) (t : json_text) : option pyval :=
  match document t with
  | Some doc => at_path path doc
  | None => None
  end.

(** ** The external clients *)

(** Keyword arguments of [client.invoke_model]. *)
Record InvokeModelRequest : Type := {
  modelId : string;
  body : json_text;
  contentType : string;
  accept : string
}.

(** What [client.invoke_model] returns: [body_read] is
    [response['body'].read()]. *)
Record InvokeModelResponse : Type := {
  body_read : json_text
}.

(** Keyword arguments of [sns.publish]. *)
Record PublishRequest : Type := {
  TopicArn : string;
  Message : string;
  Subject : string
}.

(** The SNS client: [publish] answers with a dict or raises. *)
Record SnsClient : Type := {
  publish : PublishRequest -> result pyval
}.

(** [boto3.client]: per service and region, a client or an exception. *)
Record Boto3 : Type := {
  sns_client : string -> result SnsClient
}.

(** The connector object: [self.region_name] and [self.client]. *)
Record BedrockConnector : Type := {
  region_name : string;
  client : InvokeModelRequest -> result InvokeModelResponse
}.

(** ** Effects *)

(** The pieces of a formatted line: literal text, a value rendered by
    [str()], an exception rendered by [str()]. *)
Inductive fragment : Type :=
| Lit (s : string)
| Val (v : pyval)
| Exc (e : exn).

Inductive event : Type :=
| Printed (line : list fragment)
| Invoked (req : InvokeModelRequest)
| Connected (service region : string)
| Published (req : PublishRequest).

(** A computation emits events in order and ends with a value or an
    exception. *)
Definition M (A : Type) : Type := (list event * result A)%type.

Definition ret {A : Type} (a : A) : M A := ([], inr a).

Definition raise {A : Type} (e : exn) : M A := ([], inl e).

Definition bind {A B : Type} (m : M A) (k : A -> M B) : M B :=
  match m with
  | (t, inl e) => (t, inl e)
  | (t, inr a) => let (t', r) := k a in ((t ++ t')%list, r)
  end.

Definition lift {A : Type} (r : result A) : M A := ([], r).

(** [try: m  except C as e: handler e], where [catches] is [isinstance(_, C)]. *)
Definition try_except {A : Type} (m : M A) (catches : exn -> bool)
    (handler : exn -> M A) : M A :=
  match m with
  | (t, inl e) =>
      if catches e then let (t', r) := handler e in ((t ++ t')%list, r)
      else (t, inl e)
  | (t, inr a) => (t, inr a)
  end.

Definition print (line : list fragment) : M unit := ([Printed line], inr tt).

Definition trace {A : Type} (m : M A) : list event := fst m.

Definition outcome {A : Type} (m : M A) : result A := snd m.

Declare Scope py_scope.
Delimit Scope py_scope with py.
Notation "x <- m ;; k" := (bind m (fun x => k))
  (at level 61, m at next level, right associativity) : py_scope.
Notation "m ;; k" := (bind m (fun _ => k))
  (at level 61, right associativity) : py_scope.
Notation "' pat <- m ;; k" := (bind m (fun x => match x with pat => k end))
  (at level 61, pat pattern, m at next level, right associativity) : py_scope.
Open Scope py_scope.

(** ** Calling a body builder with [**kwargs] *)

(** The three builders share the signature
    [(self, prompt, max_tokens=1000, temperature=0.5)] and are called as
    [builder(prompt, **kwargs)].  The interpreter goes through the keywords
    in order: [max_tokens] and [temperature] fill their parameter, the first
    other keyword raises [TypeError], whose message starts with the
    qualified name [callee] of the method called (CPython 3.10 and later);
    a parameter left unfilled takes its default. *)
Fixpoint bind_kwargs (callee : string) (kwargs : list (string * pyval))
    (max_tokens temperature : pyval) : result (pyval * pyval) :=
  match kwargs with
  | [] => inr (max_tokens, temperature)
  | (k, v) :: rest =>
      if String.eqb k "max_tokens" then bind_kwargs callee rest v temperature
      else if String.eqb k "temperature" then bind_kwargs callee rest max_tokens v
      else inl (TypeError (callee ++ "() got an unexpected keyword argument '"
                             ++ k ++ "'"))
  end.

Definition default_max_tokens : pyval := PInt 1000.

Definition default_temperature : pyval := PFloat 0.5.

Definition call_with_kwargs (callee : string)
    (builder : string -> pyval -> pyval -> json_text)
    (prompt : string) (kwargs : list (string * pyval)) : result json_text :=
  match bind_kwargs callee kwargs default_max_tokens default_temperature with
  | inl e => inl e
  | inr (max_tokens, temperature) => inr (builder prompt max_tokens temperature)
  end.

(** ** BedrockConnector *)

(** Create request body for Anthropic models. *)
Definition _create_anthropic_body (prompt : string)
    (max_tokens temperature : pyval) : json_text :=
  json_dumps (PDict [
    ("prompt", PStr (LF ++ LF ++ "Human: " ++ prompt ++ LF ++ LF ++ "Assistant:"));
    ("max_tokens_to_sample", max_tokens);
    ("temperature", temperature);
    ("stop_sequences", PList [PStr (LF ++ LF ++ "Human:")])
  ]).

(** Create request body for Amazon Titan models. *)
Definition _create_titan_body (prompt : string)
    (max_tokens temperature : pyval) : json_text :=
  json_dumps (PDict [
    ("inputText", PStr prompt);
    ("textGenerationConfig", PDict [
      ("maxTokenCount", max_tokens);
      ("temperature", temperature);
      ("topP", PFloat 0.9)
    ])
  ]).

(** Create request body for AI21 Jurassic models. *)
Definition _create_ai21_body (prompt : string)
    (max_tokens temperature : pyval) : json_text :=
  json_dumps (PDict [
    ("prompt", PStr prompt);
    ("maxTokens", max_tokens);
    ("temperature", temperature);
    ("topP", PFloat 0.9)
  ]).

(** Parse Anthropic model response. *)
Definition _parse_anthropic_response (response : InvokeModelResponse)
    : result pyval :=
  match json_loads (body_read response) with
  | inl e => inl e
  | inr response_body => py_get response_body "completion" (PStr "No response")
  end.

(** Parse Titan model response. *)
Definition _parse_titan_response (response : InvokeModelResponse)
    : result pyval :=
  match json_loads (body_read response) with
  | inl e => inl e
  | inr response_body =>
      match getitem_key response_body "results" with
      | inl e => inl e
      | inr results =>
          match getitem_index results 0 with
          | inl e => inl e
          | inr first => getitem_key first "outputText"
          end
      end
  end.

(** Parse AI21 model response. *)
Definition _parse_ai21_response (response : InvokeModelResponse)
    : result pyval :=
  match json_loads (body_read response) with
  | inl e => inl e
  | inr response_body =>
      match getitem_key response_body "completions" with
      | inl e => inl e
      | inr completions =>
          match getitem_index completions 0 with
          | inl e => inl e
          | inr first =>
              match getitem_key first "data" with
              | inl e => inl e
              | inr data => getitem_key data "text"
              end
          end
      end
  end.

(** [self.client.invoke_model(...)]: the request reaches the external
    client, which answers or raises. *)
Definition client_invoke_model (self : BedrockConnector)
    (req : InvokeModelRequest) : M InvokeModelResponse :=
  ([Invoked req], client self req).

(** Invoke a Bedrock model. *)
Definition invoke_model (self : BedrockConnector) (model_id prompt : string)
    (kwargs : list (string * pyval)) : M pyval :=
  try_except
    ('(body, content_type, accept) <-
        (if str_in "anthropic.claude" model_id then
           body <- lift (call_with_kwargs "BedrockConnector._create_anthropic_body"
                           _create_anthropic_body prompt kwargs) ;;
           ret (body, "application/json", "application/json")
         else if str_in "amazon.titan" model_id then
           body <- lift (call_with_kwargs "BedrockConnector._create_titan_body"
                           _create_titan_body prompt kwargs) ;;
           ret (body, "application/json", "application/json")
         else if str_in "ai21.j2" model_id then
           body <- lift (call_with_kwargs "BedrockConnector._create_ai21_body"
                           _create_ai21_body prompt kwargs) ;;
           ret (body, "application/json", "application/json")
         else
           raise (ValueError ("Unsupported model: " ++ model_id))) ;;
     response <- client_invoke_model self
       {| modelId := model_id;
          body := body;
          contentType := content_type;
          accept := accept |} ;;
     if str_in "anthropic.claude" model_id then
       lift (_parse_anthropic_response response)
     else if str_in "amazon.titan" model_id then
       lift (_parse_titan_response response)
     else if str_in "ai21.j2" model_id then
       lift (_parse_ai21_response response)
     else
       ret PNone)
    is_ClientError
    (fun e =>
       print [Lit "❌ Error invoking model: "; Exc e] ;;
       ret PNone).

(** ** SNS message *)

Definition boto3_client_sns (boto3 : Boto3) (region : string) : M SnsClient :=
  ([Connected "sns" region], sns_client boto3 region).

Definition sns_publish (sns : SnsClient) (req : PublishRequest) : M pyval :=
  ([Published req], publish sns req).

(** Send a message to an SNS topic.  [region] is the caller's argument;
    [send_sns_message_default] below is the call that leaves it out. *)
Definition send_sns_message (boto3 : Boto3) (topic_arn message region : string)
    : M pyval :=
  try_except
    (sns <- boto3_client_sns boto3 region ;;
     response <- sns_publish sns
       {| TopicArn := topic_arn;
          Message := message;
          Subject := "SNS Notification" |} ;;
     message_id <- lift (getitem_key response "MessageId") ;;
     print [Lit "Message sent successfully! Message ID: "; Val message_id] ;;
     ret response)
    is_Exception
    (fun e =>
       print [Lit "Error sending message: "; Exc e] ;;
       ret PNone).

Definition send_sns_message_default (boto3 : Boto3) (topic_arn message : string)
    : M pyval :=
  send_sns_message boto3 topic_arn message "eu-central-1".

(** ** Model families *)

Inductive ModelFamily : Type := Anthropic | Titan | Jurassic.

Definition builder_of (f : ModelFamily) : string -> pyval -> pyval -> json_text :=
  match f with
  | Anthropic => _create_anthropic_body
  | Titan => _create_titan_body
  | Jurassic => _create_ai21_body
  end.

(** The qualified name of the builder, as the interpreter reports it. *)
Definition qualname_of (f : ModelFamily) : string :=
  match f with
  | Anthropic => "BedrockConnector._create_anthropic_body"
  | Titan => "BedrockConnector._create_titan_body"
  | Jurassic => "BedrockConnector._create_ai21_body"
  end.

Definition parser_of (f : ModelFamily) : InvokeModelResponse -> result pyval :=
  match f with
  | Anthropic => _parse_anthropic_response
  | Titan => _parse_titan_response
  | Jurassic => _parse_ai21_response
  end.

(** The request [invoke_model] hands to the client for a built body. *)
Definition request_for (model_id : string) (body : json_text) : InvokeModelRequest :=
  {| modelId := model_id;
     body := body;
     contentType := "application/json";
     accept := "application/json" |}.

(** What handling a call in the style of family [f] means: the body comes
    from the builder of [f], goes to the client, and the answer is read by
    the parser of [f]; a [ClientError] on the way is reported and turned
    into [None]. *)
Definition invoke_as (f : ModelFamily) (self : BedrockConnector)
    (model_id prompt : string) (kwargs : list (string * pyval)) : M pyval :=
  try_except
    (body <- lift (call_with_kwargs (qualname_of f) (builder_of f) prompt kwargs) ;;
     response <- client_invoke_model self (request_for model_id body) ;;
     lift (parser_of f response))
    is_ClientError
    (fun e =>
       print [Lit "❌ Error invoking model: "; Exc e] ;;
       ret PNone).

(** The dispatch rule in the words of the spec: the first of the three
    substrings that [model_id] contains selects the family; none selects
    nothing. *)
Inductive Dispatch (model_id : string) : option ModelFamily -> Prop :=
| dispatch_anthropic :
    Contains model_id "anthropic.claude" ->
    Dispatch model_id (Some Anthropic)
| dispatch_titan :
    ~ Contains model_id "anthropic.claude" ->
    Contains model_id "amazon.titan" ->
    Dispatch model_id (Some Titan)
| dispatch_jurassic :
    ~ Contains model_id "anthropic.claude" ->
    ~ Contains model_id "amazon.titan" ->
    Contains model_id "ai21.j2" ->
    Dispatch model_id (Some Jurassic)
| dispatch_unsupported :
    ~ Contains model_id "anthropic.claude" ->
    ~ Contains model_id "amazon.titan" ->
    ~ Contains model_id "ai21.j2" ->
    Dispatch model_id None.

(** The same rule as a function, read off the [if]/[elif] chain. *)
Definition family_of (model_id : string) : option ModelFamily :=
  if str_in "anthropic.claude" model_id then Some Anthropic
  else if str_in "amazon.titan" model_id then Some Titan
  else if str_in "ai21.j2" model_id then Some Jurassic
  else None.

(** ** Sample connectors *)

(** A connector whose client has no credentials to sign with: every call
    raises [NoCredentialsError]. *)
Definition offline : BedrockConnector :=
  {| region_name := "eu-central-1";
     client := fun _ => inl NoCredentialsError |}.

(** A connector whose client is refused by the service. *)
Definition denied : BedrockConnector :=
  {| region_name := "eu-central-1";
     client := fun _ => inl (ClientError "AccessDeniedException") |}.

(** A connector whose client answers every call with the JSON document
    [doc]. *)
Definition canned (doc : pyval) : BedrockConnector :=
  {| region_name := "eu-central-1";
     client := fun _ => inr {| body_read := Encoded doc |} |}.

(** ** Sample SNS endpoints *)

(** An SNS endpoint that accepts every message under one identifier. *)
Definition sns_accepting : Boto3 :=
  {| sns_client := fun _ =>
       inr {| publish := fun _ => inr (PDict [("MessageId", PStr "m-1")]) |} |}.

(** An SNS endpoint that refuses every message. *)
Definition sns_refusing : Boto3 :=
  {| sns_client := fun _ =>
       inr {| publish := fun _ => inl (ClientError "NotFound") |} |}.

(** ** Client creation and the model catalog *)

(** [isinstance(e, NoCredentialsError)] *)
Definition is_NoCredentialsError (e : exn) : bool :=
  match e with
  | NoCredentialsError => true
  | _ => false
  end.

(** The clause of a [try] statement that takes [e]: the first one, in the
    order written, whose class [e] is an instance of. *)
Fixpoint select_clause {A : Type}
    (clauses : list ((exn -> bool) * (exn -> M A))) (e : exn)
    : option (exn -> M A) :=
  match clauses with
  | [] => None
  | (catches, handler) :: rest =>
      if catches e then Some handler else select_clause rest e
  end.

(** [try: m  except C1 as e: h1 e  except C2 as e: h2 e ...]; what a
    handler raises is not offered to the other clauses. *)
Definition try_excepts {A : Type} (m : M A)
    (clauses : list ((exn -> bool) * (exn -> M A))) : M A :=
  match m with
  | (t, inl e) =>
      match select_clause clauses e with
      | Some handler => let (t', r) := handler e in ((t ++ t')%list, r)
      | None => (t, inl e)
      end
  | (t, inr a) => (t, inr a)
  end.

(** The catalog client: [list_foundation_models()] answers with a dict or
    raises.  The call takes no argument; the trace shows the connection
    that precedes it. *)
Record CatalogClient : Type := {
  catalog_list_foundation_models : result pyval
}.

(** [boto3.client] for the two Bedrock services, per region. *)
Record Boto3Bedrock : Type := {
  bedrock_runtime_client :
    string -> result (InvokeModelRequest -> result InvokeModelResponse);
  bedrock_client : string -> result CatalogClient
}.

Definition boto3_client_bedrock_runtime (boto3 : Boto3Bedrock) (region : string)
    : M (InvokeModelRequest -> result InvokeModelResponse) :=
  ([Connected "bedrock-runtime" region], bedrock_runtime_client boto3 region).

Definition boto3_client_bedrock (boto3 : Boto3Bedrock) (region : string)
    : M CatalogClient :=
  ([Connected "bedrock" region], bedrock_client boto3 region).

(** Create Bedrock runtime client.  The method reads [self.region_name]
    only, which is its argument here. *)
Definition _create_client (boto3 : Boto3Bedrock) (self_region_name : string)
    : M (InvokeModelRequest -> result InvokeModelResponse) :=
  try_excepts
    (client <- boto3_client_bedrock_runtime boto3 self_region_name ;;
     print [Lit "✅ Bedrock client created successfully"] ;;
     ret client)
    [(is_NoCredentialsError,
      fun e =>
        print [Lit "❌ AWS credentials not found"] ;;
        raise e);
     (is_Exception,
      fun e =>
        print [Lit "❌ Error creating Bedrock client: "; Exc e] ;;
        raise e)].

(** Initialize Bedrock client: [BedrockConnector(region_name)]. *)
Definition __init__ (boto3 : Boto3Bedrock) (region_name : string)
    : M BedrockConnector :=
  client <- _create_client boto3 region_name ;;
  ret {| region_name := region_name; client := client |}.

(** [s * n] on [str]. *)
Fixpoint str_repeat (s : string) (n : nat) : string :=
  match n with
  | O => ""
  | S n' => s ++ str_repeat s n'
  end.

(** The items a [for] loop draws from [v]: the elements of a list, the
    keys of a dict, the characters of a string; other values are not
    iterable. *)
Definition py_iter (v : pyval) : result (list pyval) :=
  match v with
  | PList items => inr items
  | PDict items => inr (map (fun kv => PStr (fst kv)) items)
  | PStr s => inr (map (fun c => PStr (String c EmptyString)) (list_ascii_of_string s))
  | _ => inl (TypeError ("'" ++ type_name v ++ "' object is not iterable"))
  end.

(** [for x in items: body x] *)
Fixpoint for_each (items : list pyval) (body : pyval -> M unit) : M unit :=
  match items with
  | [] => ret tt
  | x :: rest => body x ;; for_each rest body
  end.

(** The body of the loop of [list_foundation_models]. *)
Definition print_model_summary (model : pyval) : M unit :=
  model_id <- lift (getitem_key model "modelId") ;;
  print [Lit "Model ID: "; Val model_id] ;;
  model_name <- lift (getitem_key model "modelName") ;;
  print [Lit "Model Name: "; Val model_name] ;;
  provider <- lift (py_get model "providerName" (PStr "N/A")) ;;
  print [Lit "Provider: "; Val provider] ;;
  input_modalities <- lift (py_get model "inputModalities" (PList [])) ;;
  print [Lit "Input Modalities: "; Val input_modalities] ;;
  output_modalities <- lift (py_get model "outputModalities" (PList [])) ;;
  print [Lit "Output Modalities: "; Val output_modalities] ;;
  print [Lit (str_repeat "-" 30)].

(** List available foundation models. *)
Definition list_foundation_models (boto3 : Boto3Bedrock) (self : BedrockConnector)
    : M pyval :=
  try_except
    (print [Lit "Region : "; Lit " "; Val (PStr (region_name self))] ;;
     bedrock_client <- boto3_client_bedrock boto3 (region_name self) ;;
     response <- lift (catalog_list_foundation_models bedrock_client) ;;
     print [Lit "Available Foundation Models:"] ;;
     print [Lit (str_repeat "-" 50)] ;;
     summaries <- lift (py_get response "modelSummaries" (PList [])) ;;
     models <- lift (py_iter summaries) ;;
     for_each models print_model_summary ;;
     ret response)
    is_ClientError
    (fun e =>
       print [Lit "Error listing models: "; Exc e] ;;
       ret PNone).

(** ** Sample Bedrock endpoints *)

(** A catalog that answers with the document [doc]; the runtime client of
    the same endpoint has no credentials. *)
Definition catalog_of (doc : pyval) : Boto3Bedrock :=
  {| bedrock_runtime_client := fun _ => inr (fun _ => inl NoCredentialsError);
     bedrock_client := fun _ => inr {| catalog_list_foundation_models := inr doc |} |}.

(** An endpoint on which no client can be created for want of
    credentials. *)
Definition no_credentials : Boto3Bedrock :=
  {| bedrock_runtime_client := fun _ => inl NoCredentialsError;
     bedrock_client := fun _ => inl NoCredentialsError |}.

(** An endpoint whose catalog refuses the listing. *)
Definition catalog_denied : Boto3Bedrock :=
  {| bedrock_runtime_client := fun _ => inl (OtherError "UnknownServiceError" "bedrock-runtime");
     bedrock_client := fun _ =>
       inr {| catalog_list_foundation_models := inl (ClientError "AccessDeniedException") |} |}.

(** An SNS endpoint whose publish call is interrupted from the keyboard. *)
Definition sns_interrupted : Boto3 :=
  {| sns_client := fun _ => inr {| publish := fun _ => inl KeyboardInterrupt |} |}.

(** An SNS endpoint in a region where no client can be created. *)
Definition sns_unreachable : Boto3 :=
  {| sns_client := fun _ => inl (OtherError "NoRegionError" "You must specify a region.") |}.

(** An SNS endpoint whose answer carries no [MessageId]. *)
Definition sns_anonymous : Boto3 :=
  {| sns_client := fun _ =>
       inr {| publish := fun _ => inr (PDict [("ResponseMetadata", PDict [])]) |} |}.

(** ** Vocabulary of the properties *)

(** The keywords the body builders take. *)
Definition allowed_keyword (kv : string * pyval) : Prop :=
  fst kv = "max_tokens" \/ fst kv = "temperature".

(** The value a keyword argument gives a parameter, or its default. *)
Definition keyword_or (kwargs : list (string * pyval)) (k : string)
    (default : pyval) : pyval :=
  match dict_get kwargs k with
  | Some v => v
  | None => default
  end.

(** A model summary the listing can print: a dict with [modelId] and
    [modelName]. *)
Definition printable_summary (model : pyval) : Prop :=
  exists items model_id model_name,
    model = PDict items /\
    dict_get items "modelId" = Some model_id /\
    dict_get items "modelName" = Some model_name.

(** The lines printed in a trace, and the messages published in it. *)
Fixpoint printed_lines (t : list event) : list (list fragment) :=
  match t with
  | [] => []
  | Printed line :: rest => line :: printed_lines rest
  | _ :: rest => printed_lines rest
  end.

Fixpoint published (t : list event) : list PublishRequest :=
  match t with
  | [] => []
  | Published req :: rest => req :: published rest
  | _ :: rest => published rest
  end.

(** * Properties *)

(** ** Substring test *)

Lemma prefix_empty (s : string) : prefix "" s = true.
Proof. destruct s; reflexivity. Qed.

Lemma prefix_split (a b : string) :
  prefix a b = true <-> exists post, b = a ++ post.
Proof.
  revert b; induction a as [|c a IH]; intros b.
  - rewrite prefix_empty. split; [intros _; exists b; reflexivity | reflexivity].
  - destruct b as [|d b]; simpl.
    + split; [discriminate | intros [post H]; discriminate].
    + destruct (ascii_dec c d) as [->|Hne].
      * rewrite IH. split; intros [post H]; exists post.
        -- now rewrite H.
        -- now injection H.
      * split; [discriminate | intros [post H]; injection H; congruence].
Qed.

Lemma str_in_Contains (needle hay : string) :
  str_in needle hay = true <-> Contains hay needle.
Proof.
  induction hay as [|c hay IH]; cbn [str_in].
  - rewrite prefix_split. split.
    + intros [post H]. exists "", post. exact H.
    + intros [pre [post H]]. destruct pre; [|discriminate].
      exists post. exact H.
  - rewrite orb_true_iff, IH, prefix_split. split.
    + intros [[post H] | [pre [post H]]].
      * exists "", post. exact H.
      * exists (String c pre), post. simpl. now rewrite H.
    + intros [pre [post H]]. destruct pre as [|d pre]; simpl in H.
      * left. exists post. exact H.
      * right. exists pre, post. now injection H.
Qed.

Lemma str_in_not_Contains (needle hay : string) :
  str_in needle hay = false <-> ~ Contains hay needle.
Proof.
  rewrite <- str_in_Contains. destruct (str_in needle hay); split; congruence.
Qed.

Lemma Dispatch_family_of (model_id : string) (target : option ModelFamily) :
  Dispatch model_id target <-> family_of model_id = target.
Proof.
  unfold family_of. split.
  - intros H; destruct H;
      repeat match goal with
      | H : Contains _ _ |- _ => apply str_in_Contains in H; rewrite H; clear H
      | H : ~ Contains _ _ |- _ => apply str_in_not_Contains in H; rewrite H; clear H
      end; reflexivity.
  - destruct (str_in "anthropic.claude" model_id) eqn:Ha;
      [intros <-; apply dispatch_anthropic; now apply str_in_Contains|].
    destruct (str_in "amazon.titan" model_id) eqn:Ht;
      [intros <-; apply dispatch_titan;
       [now apply str_in_not_Contains | now apply str_in_Contains]|].
    destruct (str_in "ai21.j2" model_id) eqn:Hj; intros <-;
      [apply dispatch_jurassic | apply dispatch_unsupported];
      first [now apply str_in_not_Contains | now apply str_in_Contains].
Qed.

(** Every identifier is dispatched, and to one target only. *)
Lemma Dispatch_total (model_id : string) :
  exists target, Dispatch model_id target.
Proof. exists (family_of model_id). now apply Dispatch_family_of. Qed.

Lemma Dispatch_functional (model_id : string) (t1 t2 : option ModelFamily) :
  Dispatch model_id t1 -> Dispatch model_id t2 -> t1 = t2.
Proof. rewrite !Dispatch_family_of. congruence. Qed.

(** ** The [if]/[elif] chains of [invoke_model] *)

Lemma invoke_model_family (self : BedrockConnector) (model_id prompt : string)
    (kwargs : list (string * pyval)) :
  invoke_model self model_id prompt kwargs =
  match family_of model_id with
  | Some f => invoke_as f self model_id prompt kwargs
  | None => raise (ValueError ("Unsupported model: " ++ model_id))
  end.
Proof.
  unfold invoke_model, family_of, invoke_as.
  destruct (str_in "anthropic.claude" model_id);
    [cbn [builder_of qualname_of];
     destruct (call_with_kwargs _ _create_anthropic_body prompt kwargs); reflexivity|].
  destruct (str_in "amazon.titan" model_id);
    [cbn [builder_of qualname_of];
     destruct (call_with_kwargs _ _create_titan_body prompt kwargs); reflexivity|].
  destruct (str_in "ai21.j2" model_id);
    [cbn [builder_of qualname_of];
     destruct (call_with_kwargs _ _create_ai21_body prompt kwargs); reflexivity|].
  reflexivity.
Qed.

(** C1: [invoke_model] classifies [model_id] by substring containment with
    the precedence "anthropic.claude", then "amazon.titan", then "ai21.j2":
    under the first rule that applies the call is handled in the style of
    that family (its body builder and its response parser), and when none
    applies the call ends in the unsupported-model error.  An identifier
    that contains several of the substrings falls under the earliest rule. *)
Theorem invoke_model_dispatch (self : BedrockConnector)
    (model_id prompt : string) (kwargs : list (string * pyval))
    (target : option ModelFamily) :
  Dispatch model_id target ->
  invoke_model self model_id prompt kwargs =
  match target with
  | Some f => invoke_as f self model_id prompt kwargs
  | None => raise (ValueError ("Unsupported model: " ++ model_id))
  end.
Proof.
  intros H. apply Dispatch_family_of in H. subst target.
  apply invoke_model_family.
Qed.

(** ** Sample calls *)

Ltac no_substring :=
  apply str_in_not_Contains; reflexivity.

Lemma invoke_model_dispatch_witness :
  Dispatch "amazon.titan/anthropic.claude" (Some Anthropic) /\
  invoke_model offline "amazon.titan/anthropic.claude" "Hi" [] =
  invoke_as Anthropic offline "amazon.titan/anthropic.claude" "Hi" [].
Proof.
  assert (H : Dispatch "amazon.titan/anthropic.claude" (Some Anthropic))
    by (apply dispatch_anthropic; exists "amazon.titan/", ""; reflexivity).
  split; [exact H|].
  exact (invoke_model_dispatch offline "Hi" [] H).
Defined.

(** C2: when [model_id] contains none of "anthropic.claude", "amazon.titan"
    and "ai21.j2", [invoke_model] ends in the unsupported-model
    [ValueError], which reaches the caller (the [except ClientError] clause
    does not take it), and the trace of the call is empty: the inference
    client was not called and nothing was printed. *)
Theorem invoke_model_unsupported (self : BedrockConnector)
    (model_id prompt : string) (kwargs : list (string * pyval)) :
  ~ Contains model_id "anthropic.claude" ->
  ~ Contains model_id "amazon.titan" ->
  ~ Contains model_id "ai21.j2" ->
  outcome (invoke_model self model_id prompt kwargs) =
    inl (ValueError ("Unsupported model: " ++ model_id)) /\
  trace (invoke_model self model_id prompt kwargs) = [] /\
  forall req, ~ In (Invoked req) (trace (invoke_model self model_id prompt kwargs)).
Proof.
  intros Ha Ht Hj.
  rewrite invoke_model_family.
  assert (E : family_of model_id = None)
    by (apply Dispatch_family_of; now apply dispatch_unsupported).
  rewrite E. repeat split. intros req [].
Qed.

Lemma invoke_model_unsupported_witness :
  outcome (invoke_model (canned PNone) "meta.llama3-8b" "Hi" [("max_tokens", PInt 5)]) =
    inl (ValueError "Unsupported model: meta.llama3-8b") /\
  trace (invoke_model (canned PNone) "meta.llama3-8b" "Hi" [("max_tokens", PInt 5)]) = [].
Proof.
  pose proof (@invoke_model_unsupported (canned PNone) "meta.llama3-8b" "Hi"
                [("max_tokens", PInt 5)]) as H.
  destruct H as [Ho [Ht _]]; [no_substring | no_substring | no_substring |].
  split; [exact Ho | exact Ht].
Defined.

(** C3, as amended: for a supported [model_id] whose body was built, a
    [ClientError] raised by the inference client is caught by
    [invoke_model]: the request was made, one diagnostic line is printed,
    and the call returns [None].  A failure of the client of any other
    class is not caught: it reaches the caller and nothing is printed. *)
Theorem invoke_model_client_failure (self : BedrockConnector)
    (model_id prompt : string) (kwargs : list (string * pyval))
    (f : ModelFamily) (body : json_text) (e : exn) :
  Dispatch model_id (Some f) ->
  call_with_kwargs (qualname_of f) (builder_of f) prompt kwargs = inr body ->
  client self (request_for model_id body) = inl e ->
  (is_ClientError e = true ->
   invoke_model self model_id prompt kwargs =
   ([Invoked (request_for model_id body);
     Printed [Lit "❌ Error invoking model: "; Exc e]],
    inr PNone)) /\
  (is_ClientError e = false ->
   invoke_model self model_id prompt kwargs =
   ([Invoked (request_for model_id body)], inl e)).
Proof.
  intros Hd Hb Hc.
  apply Dispatch_family_of in Hd.
  rewrite invoke_model_family, Hd.
  unfold invoke_as, client_invoke_model.
  rewrite Hb. cbn. rewrite Hc. cbn.
  split; intros He; rewrite He; reflexivity.
Qed.

Lemma invoke_model_client_failure_witness :
  invoke_model denied "ai21.j2-ultra" "Hi" [("temperature", PFloat 0.25)] =
  ([Invoked (request_for "ai21.j2-ultra"
               (_create_ai21_body "Hi" (PInt 1000) (PFloat 0.25)));
    Printed [Lit "❌ Error invoking model: "; Exc (ClientError "AccessDeniedException")]],
   inr PNone).
Proof.
  refine (proj1 (@invoke_model_client_failure denied "ai21.j2-ultra" "Hi"
                   [("temperature", PFloat 0.25)] Jurassic
                   (_create_ai21_body "Hi" (PInt 1000) (PFloat 0.25))
                   (ClientError "AccessDeniedException") _ _ _) _).
  - apply Dispatch_family_of. reflexivity.
  - reflexivity.
  - reflexivity.
  - reflexivity.
Defined.

(** C3 as the spec words it fails: with a supported [model_id] and a client
    that raises [NoCredentialsError], the failure is not turned into
    [None]; [invoke_model] ends in that exception and prints nothing. *)
Lemma invoke_model_lets_NoCredentialsError_through :
  Dispatch "anthropic.claude-v2" (Some Anthropic) /\
  client offline
    (request_for "anthropic.claude-v2"
       (_create_anthropic_body "Hi" (PInt 1000) (PFloat 0.5))) =
    inl NoCredentialsError /\
  invoke_model offline "anthropic.claude-v2" "Hi" [] =
    ([Invoked (request_for "anthropic.claude-v2"
                 (_create_anthropic_body "Hi" (PInt 1000) (PFloat 0.5)))],
     inl NoCredentialsError) /\
  outcome (invoke_model offline "anthropic.claude-v2" "Hi" []) <> inr PNone.
Proof.
  split; [apply Dispatch_family_of; reflexivity|].
  split; [reflexivity|].
  split; [reflexivity|].
  discriminate.
Qed.

(** ** Request bodies *)

Lemma call_with_kwargs_builds (callee : string)
    (builder : string -> pyval -> pyval -> json_text) (prompt : string)
    (kwargs : list (string * pyval)) (body : json_text) :
  call_with_kwargs callee builder prompt kwargs = inr body ->
  exists max_tokens temperature, body = builder prompt max_tokens temperature.
Proof.
  unfold call_with_kwargs.
  destruct (bind_kwargs callee kwargs default_max_tokens default_temperature)
    as [e | [max_tokens temperature]]; [discriminate|].
  intros H. injection H as <-. now exists max_tokens, temperature.
Qed.

(** C4: whatever prompt, max_tokens and temperature the caller supplies,
    [textGenerationConfig.topP] of the Titan body is 0.9 and [topP] of the
    Jurassic body is 0.9; this also holds for every body the builders
    return when called with the caller's keyword arguments, so no keyword
    changes [topP]. *)
Theorem topP_is_fixed (prompt : string) (max_tokens temperature : pyval)
    (kwargs : list (string * pyval)) :
  field ["textGenerationConfig"; "topP"]
    (_create_titan_body prompt max_tokens temperature) = Some (PFloat 0.9) /\
  field ["topP"]
    (_create_ai21_body prompt max_tokens temperature) = Some (PFloat 0.9) /\
  (forall body,
     call_with_kwargs "BedrockConnector._create_titan_body"
       _create_titan_body prompt kwargs = inr body ->
     field ["textGenerationConfig"; "topP"] body = Some (PFloat 0.9)) /\
  (forall body,
     call_with_kwargs "BedrockConnector._create_ai21_body"
       _create_ai21_body prompt kwargs = inr body ->
     field ["topP"] body = Some (PFloat 0.9)).
Proof.
  repeat split.
  - intros body H. apply call_with_kwargs_builds in H.
    destruct H as [mt [t ->]]. reflexivity.
  - intros body H. apply call_with_kwargs_builds in H.
    destruct H as [mt [t ->]]. reflexivity.
Qed.

Lemma topP_is_fixed_witness :
  field ["textGenerationConfig"; "topP"]
    (_create_titan_body "Hi" (PInt 7) (PFloat 0.25)) = Some (PFloat 0.9) /\
  field ["topP"]
    (_create_ai21_body "Hi" (PInt 7) (PFloat 0.25)) = Some (PFloat 0.9).
Proof.
  destruct (topP_is_fixed "Hi" (PInt 7) (PFloat 0.25)
              [("temperature", PFloat 0.25); ("max_tokens", PInt 7)])
    as [Ht [Hj [Hkt Hkj]]].
  split.
  - apply Hkt. reflexivity.
  - apply Hkj. reflexivity.
Defined.

(** C5: for every prompt the Anthropic body has the four fields [prompt],
    [max_tokens_to_sample], [temperature] and [stop_sequences]; its
    [prompt] is two line feeds and "Human: ", then the caller's prompt,
    then two line feeds and "Assistant:"; its [stop_sequences] is the list
    of the one string made of two line feeds and "Human:". *)
Theorem anthropic_body_shape (prompt : string) (max_tokens temperature : pyval) :
  let human := String "010"%char (String "010"%char "Human: ") in
  let assistant := String "010"%char (String "010"%char "Assistant:") in
  let stop := String "010"%char (String "010"%char "Human:") in
  let body := _create_anthropic_body prompt max_tokens temperature in
  field ["prompt"] body = Some (PStr (human ++ prompt ++ assistant)) /\
  field ["stop_sequences"] body = Some (PList [PStr stop]) /\
  field ["max_tokens_to_sample"] body = Some max_tokens /\
  field ["temperature"] body = Some temperature /\
  exists items,
    body = json_dumps (PDict items) /\
    map fst items =
      ["prompt"; "max_tokens_to_sample"; "temperature"; "stop_sequences"].
Proof.
  cbv zeta. repeat split.
  eexists. split; reflexivity.
Qed.

(** ** Response parsers *)

(** C6: on an Anthropic response whose payload is a JSON object the parser
    returns the value of the field [completion], and the string
    "No response" when the object has no such field; so [{"completion": X}]
    gives [X] and [{}] gives "No response". *)
Theorem parse_anthropic_completion :
  (forall response items,
     json_loads (body_read response) = inr (PDict items) ->
     _parse_anthropic_response response =
     inr match dict_get items "completion" with
         | Some v => v
         | None => PStr "No response"
         end) /\
  (forall X : string,
     _parse_anthropic_response
       {| body_read := Encoded (PDict [("completion", PStr X)]) |} =
     inr (PStr X)) /\
  _parse_anthropic_response {| body_read := Encoded (PDict []) |} =
    inr (PStr "No response").
Proof.
  repeat split.
  intros response items H. unfold _parse_anthropic_response.
  rewrite H. cbn. destruct (dict_get items "completion"); reflexivity.
Qed.

Lemma parse_anthropic_completion_witness :
  _parse_anthropic_response
    {| body_read :=
         Encoded (PDict [("stop_reason", PStr "stop_sequence");
                         ("completion", PStr " Hello!")]) |} =
  inr (PStr " Hello!").
Proof.
  apply (proj1 parse_anthropic_completion
           {| body_read :=
                Encoded (PDict [("stop_reason", PStr "stop_sequence");
                                ("completion", PStr " Hello!")]) |}
           [("stop_reason", PStr "stop_sequence"); ("completion", PStr " Hello!")]).
  reflexivity.
Defined.

(** C8: on a Titan response whose [results] list is empty, and on a
    Jurassic response whose [completions] list is empty, the parser does
    not return a value: it raises [IndexError]. *)
Theorem parsers_fail_on_empty_list (response : InvokeModelResponse)
    (items : list (string * pyval)) :
  json_loads (body_read response) = inr (PDict items) ->
  (dict_get items "results" = Some (PList []) ->
   _parse_titan_response response = inl (IndexError "list index out of range")) /\
  (dict_get items "completions" = Some (PList []) ->
   _parse_ai21_response response = inl (IndexError "list index out of range")).
Proof.
  intros H. unfold _parse_titan_response, _parse_ai21_response.
  rewrite H. cbn. split; intros ->; reflexivity.
Qed.

Lemma parsers_fail_on_empty_list_witness :
  _parse_titan_response
    {| body_read := Encoded (PDict [("results", PList []); ("completions", PList [])]) |} =
    inl (IndexError "list index out of range") /\
  _parse_ai21_response
    {| body_read := Encoded (PDict [("results", PList []); ("completions", PList [])]) |} =
    inl (IndexError "list index out of range").
Proof.
  destruct (@parsers_fail_on_empty_list
              {| body_read :=
                   Encoded (PDict [("results", PList []); ("completions", PList [])]) |}
              [("results", PList []); ("completions", PList [])] eq_refl)
    as [Ht Hj].
  split; [apply Ht | apply Hj]; reflexivity.
Defined.

(** ** Whole calls *)

(** C7: the call with model_id "amazon.titan-text-express-v1", the prompt
    "Write a short poem about AI", max_tokens 200 and temperature 0.8 makes
    one request, whose body is
    [{"inputText": "Write a short poem about AI", "textGenerationConfig":
    {"maxTokenCount": 200, "temperature": 0.8, "topP": 0.9}}]; when the
    client answers it with [{"results": [{"outputText": "roses are red"}]}]
    the call returns "roses are red" and prints nothing. *)
Theorem titan_poem_scenario (self : BedrockConnector) :
  let sent :=
    {| modelId := "amazon.titan-text-express-v1";
       body :=
         Encoded (PDict [
           ("inputText", PStr "Write a short poem about AI");
           ("textGenerationConfig", PDict [
             ("maxTokenCount", PInt 200);
             ("temperature", PFloat 0.8);
             ("topP", PFloat 0.9)])]);
       contentType := "application/json";
       accept := "application/json" |} in
  client self sent =
    inr {| body_read :=
             Encoded (PDict [("results",
                        PList [PDict [("outputText", PStr "roses are red")]])]) |} ->
  invoke_model self "amazon.titan-text-express-v1" "Write a short poem about AI"
    [("max_tokens", PInt 200); ("temperature", PFloat 0.8)] =
  ([Invoked sent], inr (PStr "roses are red")).
Proof.
  cbv zeta. intros H.
  rewrite invoke_model_family.
  change (family_of "amazon.titan-text-express-v1") with (Some Titan).
  unfold invoke_as, client_invoke_model. cbn.
  unfold request_for, _create_titan_body, json_dumps.
  rewrite H. reflexivity.
Qed.

Lemma titan_poem_scenario_witness :
  invoke_model
    (canned (PDict [("results",
               PList [PDict [("outputText", PStr "roses are red")]])]))
    "amazon.titan-text-express-v1" "Write a short poem about AI"
    [("max_tokens", PInt 200); ("temperature", PFloat 0.8)] =
  ([Invoked
      {| modelId := "amazon.titan-text-express-v1";
         body :=
           Encoded (PDict [
             ("inputText", PStr "Write a short poem about AI");
             ("textGenerationConfig", PDict [
               ("maxTokenCount", PInt 200);
               ("temperature", PFloat 0.8);
               ("topP", PFloat 0.9)])]);
         contentType := "application/json";
         accept := "application/json" |}],
   inr (PStr "roses are red")).
Proof.
  apply (@titan_poem_scenario
           (canned (PDict [("results",
                      PList [PDict [("outputText", PStr "roses are red")]])]))).
  reflexivity.
Defined.

(** C9: when the caller passes no generation parameter, the request of a
    supported model carries the body its family builds from max_tokens 1000
    and temperature 0.5: they appear as [max_tokens_to_sample] and
    [temperature] (Anthropic), as [textGenerationConfig.maxTokenCount] and
    [textGenerationConfig.temperature] (Titan), as [maxTokens] and
    [temperature] (Jurassic). *)
Theorem default_generation_parameters (self : BedrockConnector)
    (model_id prompt : string) (f : ModelFamily) :
  Dispatch model_id (Some f) ->
  exists body,
    call_with_kwargs (qualname_of f) (builder_of f) prompt [] = inr body /\
    hd_error (trace (invoke_model self model_id prompt [])) =
      Some (Invoked (request_for model_id body)) /\
    match f with
    | Anthropic =>
        field ["max_tokens_to_sample"] body = Some (PInt 1000) /\
        field ["temperature"] body = Some (PFloat 0.5)
    | Titan =>
        field ["textGenerationConfig"; "maxTokenCount"] body = Some (PInt 1000) /\
        field ["textGenerationConfig"; "temperature"] body = Some (PFloat 0.5)
    | Jurassic =>
        field ["maxTokens"] body = Some (PInt 1000) /\
        field ["temperature"] body = Some (PFloat 0.5)
    end.
Proof.
  intros Hd. apply Dispatch_family_of in Hd.
  exists (builder_of f prompt (PInt 1000) (PFloat 0.5)).
  split; [reflexivity|]. split.
  - rewrite invoke_model_family, Hd.
    unfold invoke_as, client_invoke_model. cbn.
    destruct (client self _) as [e | response]; cbn.
    + destruct (is_ClientError e); reflexivity.
    + destruct (parser_of f response) as [e | v]; cbn;
        [destruct (is_ClientError e)|]; reflexivity.
  - destruct f; split; reflexivity.
Qed.

Lemma default_generation_parameters_witness :
  exists body,
    call_with_kwargs "BedrockConnector._create_titan_body"
      _create_titan_body "Hi" [] = inr body /\
    hd_error (trace (invoke_model denied "amazon.titan-text-lite-v1" "Hi" [])) =
      Some (Invoked (request_for "amazon.titan-text-lite-v1" body)) /\
    field ["textGenerationConfig"; "maxTokenCount"] body = Some (PInt 1000) /\
    field ["textGenerationConfig"; "temperature"] body = Some (PFloat 0.5).
Proof.
  apply (@default_generation_parameters denied "amazon.titan-text-lite-v1" "Hi" Titan).
  apply Dispatch_family_of. reflexivity.
Defined.

(** ** SNS *)

Lemma try_except_Exception_escapes {A : Type} (m : M A) (handler : exn -> M A) :
  (forall e, exists t a, handler e = (t, inr a)) ->
  forall e,
    outcome (try_except m is_Exception handler) = inl e ->
    is_Exception e = false.
Proof.
  intros Hh e. destruct m as [t [e' | a]]; cbn; [|discriminate].
  destruct (is_Exception e') eqn:E.
  - destruct (Hh e') as [t' [a ->]]. discriminate.
  - cbn. intros H. injection H as <-. exact E.
Qed.

(** C10, as amended: [send_sns_message] never ends in an instance of
    [Exception].  When the publish call raises an instance of [Exception],
    it is caught, one diagnostic line is printed and the result is [None];
    an exception of a class outside [Exception] ([KeyboardInterrupt],
    [SystemExit]) is not caught and reaches the caller.  When the publish
    call answers with a response that has a [MessageId], that identifier is
    printed and the response itself is the result. *)
Theorem send_sns_message_outcomes (boto3 : Boto3)
    (topic_arn message region : string) :
  let req :=
    {| TopicArn := topic_arn; Message := message; Subject := "SNS Notification" |} in
  (forall e,
     outcome (send_sns_message boto3 topic_arn message region) = inl e ->
     is_Exception e = false) /\
  (forall sns e,
     sns_client boto3 region = inr sns ->
     publish sns req = inl e ->
     is_Exception e = true ->
     send_sns_message boto3 topic_arn message region =
     ([Connected "sns" region; Published req;
       Printed [Lit "Error sending message: "; Exc e]],
      inr PNone)) /\
  (forall sns e,
     sns_client boto3 region = inr sns ->
     publish sns req = inl e ->
     is_Exception e = false ->
     send_sns_message boto3 topic_arn message region =
     ([Connected "sns" region; Published req], inl e)) /\
  (forall sns response message_id,
     sns_client boto3 region = inr sns ->
     publish sns req = inr response ->
     getitem_key response "MessageId" = inr message_id ->
     send_sns_message boto3 topic_arn message region =
     ([Connected "sns" region; Published req;
       Printed [Lit "Message sent successfully! Message ID: "; Val message_id]],
      inr response)).
Proof.
  cbv zeta. split; [|split; [|split]].
  - apply try_except_Exception_escapes. intros e. eexists _, _. reflexivity.
  - intros sns e Hs Hp He. unfold send_sns_message, boto3_client_sns, sns_publish.
    rewrite Hs. cbn. rewrite Hp. cbn. rewrite He. reflexivity.
  - intros sns e Hs Hp He. unfold send_sns_message, boto3_client_sns, sns_publish.
    rewrite Hs. cbn. rewrite Hp. cbn. rewrite He. reflexivity.
  - intros sns response message_id Hs Hp Hm.
    unfold send_sns_message, boto3_client_sns, sns_publish.
    rewrite Hs. cbn. rewrite Hp. cbn. rewrite Hm. reflexivity.
Qed.

Lemma send_sns_message_outcomes_witness :
  send_sns_message sns_refusing "arn:aws:sns:eu-central-1:1:myNotify" "roses are red"
    "eu-central-1" =
  ([Connected "sns" "eu-central-1";
    Published {| TopicArn := "arn:aws:sns:eu-central-1:1:myNotify";
                 Message := "roses are red";
                 Subject := "SNS Notification" |};
    Printed [Lit "Error sending message: "; Exc (ClientError "NotFound")]],
   inr PNone) /\
  send_sns_message sns_accepting "arn:aws:sns:eu-central-1:1:myNotify" "roses are red"
    "eu-central-1" =
  ([Connected "sns" "eu-central-1";
    Published {| TopicArn := "arn:aws:sns:eu-central-1:1:myNotify";
                 Message := "roses are red";
                 Subject := "SNS Notification" |};
    Printed [Lit "Message sent successfully! Message ID: "; Val (PStr "m-1")]],
   inr (PDict [("MessageId", PStr "m-1")])).
Proof.
  split.
  - refine (proj1 (proj2 (send_sns_message_outcomes sns_refusing
                            "arn:aws:sns:eu-central-1:1:myNotify" "roses are red"
                            "eu-central-1")) _ _ eq_refl eq_refl eq_refl).
  - refine (proj2 (proj2 (proj2 (send_sns_message_outcomes sns_accepting
                            "arn:aws:sns:eu-central-1:1:myNotify" "roses are red"
                            "eu-central-1"))) _ _ _ eq_refl eq_refl eq_refl).
Defined.

(** C10 as first worded fails: when the publish call is interrupted from
    the keyboard, [KeyboardInterrupt] is not an instance of [Exception];
    [send_sns_message] does not catch it, prints nothing and ends in that
    exception instead of returning [None]. *)
Lemma send_sns_message_lets_KeyboardInterrupt_through :
  sns_client sns_interrupted "eu-central-1" =
    inr {| publish := fun _ => inl KeyboardInterrupt |} /\
  send_sns_message sns_interrupted "arn:aws:sns:eu-central-1:1:myNotify"
    "roses are red" "eu-central-1" =
  ([Connected "sns" "eu-central-1";
    Published {| TopicArn := "arn:aws:sns:eu-central-1:1:myNotify";
                 Message := "roses are red";
                 Subject := "SNS Notification" |}],
   inl KeyboardInterrupt) /\
  outcome (send_sns_message sns_interrupted "arn:aws:sns:eu-central-1:1:myNotify"
             "roses are red" "eu-central-1") <> inr PNone.
Proof.
  split; [reflexivity|]. split; [reflexivity|]. discriminate.
Qed.

(** * Further properties *)

(** ** Which exceptions the pure parts raise *)

Lemma getitem_key_not_ClientError (v : pyval) (k : string) (e : exn) :
  getitem_key v k = inl e -> is_ClientError e = false.
Proof.
  destruct v; cbn; try (intros H; injection H as <-; reflexivity).
  destruct (dict_get items k); intros H; [discriminate|].
  injection H as <-. reflexivity.
Qed.

Lemma getitem_index_not_ClientError (v : pyval) (i : Z) (e : exn) :
  getitem_index v i = inl e -> is_ClientError e = false.
Proof.
  destruct v; cbn; try (intros H; injection H as <-; reflexivity).
  - destruct (seq_pos (String.length s) i) as [j|];
      [destruct (String.get j s)|]; intros H; try discriminate;
      injection H as <-; reflexivity.
  - destruct (seq_pos (List.length items) i) as [j|];
      [destruct (nth_error items j)|]; intros H; try discriminate;
      injection H as <-; reflexivity.
Qed.

Lemma py_get_not_ClientError (v : pyval) (k : string) (d : pyval) (e : exn) :
  py_get v k d = inl e -> is_ClientError e = false.
Proof.
  destruct v; cbn; try (intros H; injection H as <-; reflexivity).
  destruct (dict_get items k); discriminate.
Qed.

Lemma json_loads_not_ClientError (t : json_text) (e : exn) :
  json_loads t = inl e -> is_ClientError e = false.
Proof.
  destruct t; cbn; intros H; [discriminate|]. injection H as <-.
  destruct fault; reflexivity.
Qed.

Lemma parser_not_ClientError (f : ModelFamily) (response : InvokeModelResponse)
    (e : exn) :
  parser_of f response = inl e -> is_ClientError e = false.
Proof.
  destruct f; cbn;
    unfold _parse_anthropic_response, _parse_titan_response, _parse_ai21_response;
    destruct (json_loads (body_read response)) as [e0 | doc] eqn:El.
  - intros H; injection H as <-. eapply json_loads_not_ClientError; eassumption.
  - apply py_get_not_ClientError.
  - intros H; injection H as <-. eapply json_loads_not_ClientError; eassumption.
  - destruct (getitem_key doc "results") as [e1 | results] eqn:E1.
    { intros H; injection H as <-. eapply getitem_key_not_ClientError; eassumption. }
    destruct (getitem_index results 0) as [e2 | first] eqn:E2.
    { intros H; injection H as <-. eapply getitem_index_not_ClientError; eassumption. }
    apply getitem_key_not_ClientError.
  - intros H; injection H as <-. eapply json_loads_not_ClientError; eassumption.
  - destruct (getitem_key doc "completions") as [e1 | completions] eqn:E1.
    { intros H; injection H as <-. eapply getitem_key_not_ClientError; eassumption. }
    destruct (getitem_index completions 0) as [e2 | first] eqn:E2.
    { intros H; injection H as <-. eapply getitem_index_not_ClientError; eassumption. }
    destruct (getitem_key first "data") as [e3 | data] eqn:E3.
    { intros H; injection H as <-. eapply getitem_key_not_ClientError; eassumption. }
    apply getitem_key_not_ClientError.
Qed.

(** ** Keyword arguments *)


Lemma bind_kwargs_first_unexpected (callee : string)
    (good rest : list (string * pyval)) (k : string) (v m t : pyval) :
  Forall allowed_keyword good ->
  ~ allowed_keyword (k, v) ->
  bind_kwargs callee (good ++ (k, v) :: rest) m t =
  inl (TypeError (callee ++ "() got an unexpected keyword argument '" ++ k ++ "'")).
Proof.
  intros Hg Hk. revert m t.
  induction Hg as [|[k' v'] good [Hk'|Hk'] _ IH]; intros m t; cbn in *.
  - destruct (String.eqb_spec k "max_tokens") as [->|_];
      [exfalso; apply Hk; left; reflexivity|].
    destruct (String.eqb_spec k "temperature") as [->|_];
      [exfalso; apply Hk; right; reflexivity|].
    reflexivity.
  - subst k'. cbn. apply IH.
  - subst k'. cbn. apply IH.
Qed.

Lemma bind_kwargs_error_not_ClientError (callee : string)
    (kwargs : list (string * pyval)) (m t : pyval) (e : exn) :
  bind_kwargs callee kwargs m t = inl e -> is_ClientError e = false.
Proof.
  revert m t. induction kwargs as [|[k v] rest IH]; intros m t; cbn.
  - discriminate.
  - destruct (String.eqb k "max_tokens"); [apply IH|].
    destruct (String.eqb k "temperature"); [apply IH|].
    intros H; injection H as <-. reflexivity.
Qed.

Lemma call_with_kwargs_error_not_ClientError (callee : string)
    (builder : string -> pyval -> pyval -> json_text) (prompt : string)
    (kwargs : list (string * pyval)) (e : exn) :
  call_with_kwargs callee builder prompt kwargs = inl e -> is_ClientError e = false.
Proof.
  unfold call_with_kwargs.
  destruct (bind_kwargs callee kwargs default_max_tokens default_temperature)
    as [e0 | [m t]] eqn:E; [|discriminate].
  intros H; injection H as <-. eapply bind_kwargs_error_not_ClientError; eassumption.
Qed.

Lemma dict_get_absent (items : list (string * pyval)) (k : string) :
  ~ In k (map fst items) -> dict_get items k = None.
Proof.
  induction items as [|[k' v] rest IH]; cbn; [reflexivity|].
  intros H. destruct (String.eqb_spec k' k) as [->|_].
  - exfalso. apply H. now left.
  - apply IH. intros Hin. apply H. now right.
Qed.

Lemma bind_kwargs_lookup (callee : string) (kwargs : list (string * pyval))
    (m t : pyval) :
  Forall allowed_keyword kwargs ->
  NoDup (map fst kwargs) ->
  bind_kwargs callee kwargs m t =
  inr (keyword_or kwargs "max_tokens" m, keyword_or kwargs "temperature" t).
Proof.
  intros Ha. revert m t.
  induction Ha as [|[k v] rest [Hk|Hk] _ IH]; intros m t Hnd; cbn in *.
  - reflexivity.
  - subst k. inversion Hnd as [|? ? Hnotin Hnd']; subst.
    rewrite (IH v t Hnd'). unfold keyword_or. cbn.
    now rewrite (@dict_get_absent rest "max_tokens") by assumption.
  - subst k. inversion Hnd as [|? ? Hnotin Hnd']; subst.
    rewrite (IH m v Hnd'). unfold keyword_or. cbn.
    now rewrite (@dict_get_absent rest "temperature") by assumption.
Qed.


(** X2: when the keywords are distinct, as the keys of a dict are, and all
    allowed, the body is built from the value given under [max_tokens], or
    1000 when it is not given, and the value given under [temperature], or
    0.5 when it is not given; the order of the keywords does not matter. *)
Theorem call_with_kwargs_lookup (callee : string)
    (builder : string -> pyval -> pyval -> json_text) (prompt : string)
    (kwargs : list (string * pyval)) :
  Forall allowed_keyword kwargs ->
  NoDup (map fst kwargs) ->
  call_with_kwargs callee builder prompt kwargs =
  inr (builder prompt
         (keyword_or kwargs "max_tokens" (PInt 1000))
         (keyword_or kwargs "temperature" (PFloat 0.5))).
Proof.
  intros Ha Hnd. unfold call_with_kwargs.
  now rewrite (bind_kwargs_lookup callee default_max_tokens default_temperature Ha Hnd).
Qed.

Lemma call_with_kwargs_lookup_witness :
  call_with_kwargs "BedrockConnector._create_ai21_body"
    _create_ai21_body "Hi" [("temperature", PFloat 0.25)] =
  inr (_create_ai21_body "Hi" (PInt 1000) (PFloat 0.25)).
Proof.
  apply (@call_with_kwargs_lookup "BedrockConnector._create_ai21_body"
           _create_ai21_body "Hi" [("temperature", PFloat 0.25)]).
  - constructor; [right; reflexivity | constructor].
  - constructor; [intros [] | constructor].
Defined.


(** ** The course of a supported call *)

Lemma invoke_as_cases (f : ModelFamily) (self : BedrockConnector)
    (model_id prompt : string) (kwargs : list (string * pyval)) :
  invoke_as f self model_id prompt kwargs =
  match call_with_kwargs (qualname_of f) (builder_of f) prompt kwargs with
  | inl e => ([], inl e)
  | inr body =>
      match client self (request_for model_id body) with
      | inl e =>
          if is_ClientError e then
            ([Invoked (request_for model_id body);
              Printed [Lit "❌ Error invoking model: "; Exc e]],
             inr PNone)
          else ([Invoked (request_for model_id body)], inl e)
      | inr response =>
          ([Invoked (request_for model_id body)], parser_of f response)
      end
  end.
Proof.
  unfold invoke_as, client_invoke_model.
  destruct (call_with_kwargs (qualname_of f) (builder_of f) prompt kwargs)
    as [e | body] eqn:Eb; cbn.
  - now rewrite (call_with_kwargs_error_not_ClientError _ _ _ _ Eb).
  - destruct (client self (request_for model_id body)) as [e | response]; cbn.
    + destruct (is_ClientError e); reflexivity.
    + destruct (parser_of f response) as [e | v] eqn:Ep; cbn; [|reflexivity].
      now rewrite (parser_not_ClientError _ _ Ep).
Qed.

(** X3: when the client answers the request of a supported model, the
    outcome of [invoke_model] is the outcome of the family's parser on that
    answer, value or exception alike: one request is made, nothing is
    printed, and an exception raised while parsing reaches the caller. *)
Theorem invoke_model_answered (self : BedrockConnector)
    (model_id prompt : string) (kwargs : list (string * pyval))
    (f : ModelFamily) (body : json_text) (response : InvokeModelResponse) :
  Dispatch model_id (Some f) ->
  call_with_kwargs (qualname_of f) (builder_of f) prompt kwargs = inr body ->
  client self (request_for model_id body) = inr response ->
  invoke_model self model_id prompt kwargs =
  ([Invoked (request_for model_id body)], parser_of f response).
Proof.
  intros Hd Hb Hc. apply Dispatch_family_of in Hd.
  now rewrite invoke_model_family, Hd, invoke_as_cases, Hb, Hc.
Qed.

Lemma invoke_model_answered_witness :
  invoke_model
    (canned (PDict [("completions",
               PList [PDict [("data", PDict [("text", PStr "Z")])]])]))
    "ai21.j2-mid" "Hi" [] =
  ([Invoked (request_for "ai21.j2-mid"
               (_create_ai21_body "Hi" (PInt 1000) (PFloat 0.5)))],
   inr (PStr "Z")).
Proof.
  apply (@invoke_model_answered
           (canned (PDict [("completions",
                      PList [PDict [("data", PDict [("text", PStr "Z")])]])]))
           "ai21.j2-mid" "Hi" [] Jurassic
           (_create_ai21_body "Hi" (PInt 1000) (PFloat 0.5))
           {| body_read :=
                Encoded (PDict [("completions",
                           PList [PDict [("data", PDict [("text", PStr "Z")])]])]) |}).
  - apply Dispatch_family_of. reflexivity.
  - reflexivity.
  - reflexivity.
Defined.

(** X4: for a supported model, a keyword other than [max_tokens] and
    [temperature] makes [invoke_model] end in the [TypeError] of the
    interpreter, whose message names the builder of the family and the
    first such keyword; the exception reaches the caller, no request is
    made and nothing is printed. *)
Theorem invoke_model_unexpected_keyword (self : BedrockConnector)
    (model_id prompt : string) (f : ModelFamily)
    (good rest : list (string * pyval)) (k : string) (v : pyval) :
  Dispatch model_id (Some f) ->
  Forall allowed_keyword good ->
  ~ allowed_keyword (k, v) ->
  invoke_model self model_id prompt (good ++ (k, v) :: rest) =
  ([], inl (TypeError (match f with
                       | Anthropic => "BedrockConnector._create_anthropic_body"
                       | Titan => "BedrockConnector._create_titan_body"
                       | Jurassic => "BedrockConnector._create_ai21_body"
                       end ++ "() got an unexpected keyword argument '" ++ k ++ "'"))).
Proof.
  intros Hd Hg Hk. apply Dispatch_family_of in Hd.
  rewrite invoke_model_family, Hd, invoke_as_cases.
  unfold call_with_kwargs.
  rewrite (bind_kwargs_first_unexpected (qualname_of f) rest _ _ Hg Hk).
  destruct f; reflexivity.
Qed.

Lemma invoke_model_unexpected_keyword_witness :
  invoke_model (canned PNone) "amazon.titan-text-express-v1" "Hi"
    [("max_tokens", PInt 5); ("top_p", PFloat 0.5); ("top_k", PInt 3)] =
  ([], inl (TypeError
     "BedrockConnector._create_titan_body() got an unexpected keyword argument 'top_p'")).
Proof.
  apply (@invoke_model_unexpected_keyword (canned PNone)
           "amazon.titan-text-express-v1" "Hi" Titan
           [("max_tokens", PInt 5)] [("top_k", PInt 3)] "top_p" (PFloat 0.5)).
  - apply Dispatch_family_of. reflexivity.
  - constructor; [left; reflexivity | constructor].
  - intros [H | H]; discriminate H.
Defined.

(** X5: whatever the arguments and the client, a call of [invoke_model]
    makes at most one request and prints at most one line.  Its trace is
    empty, or the one request, for [model_id] as given and with both
    headers "application/json", or that request followed by the diagnostic
    of a [ClientError]. *)
Theorem invoke_model_one_request (self : BedrockConnector)
    (model_id prompt : string) (kwargs : list (string * pyval)) :
  trace (invoke_model self model_id prompt kwargs) = [] \/
  exists body,
    trace (invoke_model self model_id prompt kwargs) =
      [Invoked (request_for model_id body)] \/
    exists msg,
      trace (invoke_model self model_id prompt kwargs) =
        [Invoked (request_for model_id body);
         Printed [Lit "❌ Error invoking model: "; Exc (ClientError msg)]].
Proof.
  rewrite invoke_model_family.
  destruct (family_of model_id) as [f|]; [|left; reflexivity].
  rewrite invoke_as_cases.
  destruct (call_with_kwargs (qualname_of f) (builder_of f) prompt kwargs) as [e | body];
    [left; reflexivity|].
  right. exists body.
  destruct (client self (request_for model_id body)) as [e | response];
    [|left; reflexivity].
  destruct e; cbn; try (left; reflexivity).
  right. eexists. reflexivity.
Qed.

(** X6: when [json.loads] rejects the payload of the client's answer,
    whichever exception it raises for it ([JSONDecodeError] for text that
    is not JSON, [UnicodeDecodeError] for bytes that are not UTF-8),
    [invoke_model] ends in that same exception after its one request, for
    each of the three families: the failure is not turned into [None]. *)
Theorem invoke_model_malformed_payload (self : BedrockConnector)
    (model_id prompt : string) (kwargs : list (string * pyval))
    (f : ModelFamily) (body : json_text) (response : InvokeModelResponse)
    (e : exn) :
  Dispatch model_id (Some f) ->
  call_with_kwargs (qualname_of f) (builder_of f) prompt kwargs = inr body ->
  client self (request_for model_id body) = inr response ->
  json_loads (body_read response) = inl e ->
  invoke_model self model_id prompt kwargs =
  ([Invoked (request_for model_id body)], inl e).
Proof.
  intros Hd Hb Hc He. apply Dispatch_family_of in Hd.
  rewrite invoke_model_family, Hd, invoke_as_cases, Hb, Hc.
  destruct f; cbn;
    unfold _parse_anthropic_response, _parse_titan_response, _parse_ai21_response;
    rewrite He; reflexivity.
Qed.

Lemma invoke_model_malformed_payload_witness :
  invoke_model
    {| region_name := "eu-central-1";
       client := fun _ =>
         inr {| body_read := Malformed (NotUTF8 "invalid start byte") |} |}
    "anthropic.claude-v2" "Hi" [] =
  ([Invoked (request_for "anthropic.claude-v2"
               (_create_anthropic_body "Hi" (PInt 1000) (PFloat 0.5)))],
   inl (UnicodeDecodeError "invalid start byte")).
Proof.
  apply (@invoke_model_malformed_payload
           {| region_name := "eu-central-1";
              client := fun _ =>
                inr {| body_read := Malformed (NotUTF8 "invalid start byte") |} |}
           "anthropic.claude-v2" "Hi" [] Anthropic
           (_create_anthropic_body "Hi" (PInt 1000) (PFloat 0.5))
           {| body_read := Malformed (NotUTF8 "invalid start byte") |}
           (UnicodeDecodeError "invalid start byte")).
  - apply Dispatch_family_of. reflexivity.
  - reflexivity.
  - reflexivity.
  - reflexivity.
Defined.

(** X7: when the client answers a Titan model with an empty [results]
    list, or a Jurassic model with an empty [completions] list,
    [invoke_model] ends in [IndexError] after its one request: the fault of
    the parser reaches the caller and is not turned into [None]. *)
Theorem invoke_model_empty_result_list (self : BedrockConnector)
    (model_id prompt : string) (kwargs : list (string * pyval))
    (f : ModelFamily) (body : json_text) (items : list (string * pyval)) :
  Dispatch model_id (Some f) ->
  call_with_kwargs (qualname_of f) (builder_of f) prompt kwargs = inr body ->
  client self (request_for model_id body) =
    inr {| body_read := Encoded (PDict items) |} ->
  (f = Titan /\ dict_get items "results" = Some (PList []) \/
   f = Jurassic /\ dict_get items "completions" = Some (PList [])) ->
  invoke_model self model_id prompt kwargs =
  ([Invoked (request_for model_id body)],
   inl (IndexError "list index out of range")).
Proof.
  intros Hd Hb Hc Hempty. apply Dispatch_family_of in Hd.
  rewrite invoke_model_family, Hd, invoke_as_cases, Hb, Hc.
  destruct Hempty as [[-> He] | [-> He]]; cbn;
    unfold _parse_titan_response, _parse_ai21_response; cbn;
    rewrite He; reflexivity.
Qed.

Lemma invoke_model_empty_result_list_witness :
  invoke_model (canned (PDict [("results", PList [])]))
    "amazon.titan-text-express-v1" "Hi" [] =
  ([Invoked (request_for "amazon.titan-text-express-v1"
               (_create_titan_body "Hi" (PInt 1000) (PFloat 0.5)))],
   inl (IndexError "list index out of range")).
Proof.
  apply (@invoke_model_empty_result_list (canned (PDict [("results", PList [])]))
           "amazon.titan-text-express-v1" "Hi" [] Titan
           (_create_titan_body "Hi" (PInt 1000) (PFloat 0.5))
           [("results", PList [])]).
  - apply Dispatch_family_of. reflexivity.
  - reflexivity.
  - reflexivity.
  - left. split; reflexivity.
Defined.

(** ** More on the response parsers *)

(** X8: the Titan parser returns a value exactly when the payload is a JSON
    object whose [results] is a list that starts with an object having
    [outputText]; the value is that field of the first result, and further
    results are ignored. *)
Theorem parse_titan_succeeds_iff (response : InvokeModelResponse) (y : pyval) :
  _parse_titan_response response = inr y <->
  exists items first rest,
    body_read response = Encoded (PDict items) /\
    dict_get items "results" = Some (PList (PDict first :: rest)) /\
    dict_get first "outputText" = Some y.
Proof.
  unfold _parse_titan_response. split.
  - destruct (body_read response) as [doc | raw]; cbn; [|discriminate].
    destruct doc; cbn; try discriminate.
    destruct (dict_get items "results") as [results|] eqn:Er; [|discriminate].
    destruct results as [| | | | s | l | d]; cbn; try discriminate.
    + destruct (seq_pos (String.length s) 0) as [j|];
        [destruct (String.get j s)|]; cbn; discriminate.
    + destruct l as [|first rest]; cbn; [discriminate|].
      destruct first; cbn; try discriminate.
      destruct (dict_get items0 "outputText") as [v|] eqn:Eo; [|discriminate].
      intros H; injection H as <-.
      exists items, items0, rest. repeat split; assumption.
  - intros [items [first [rest [-> [Hr Ho]]]]]. cbn.
    rewrite Hr. cbn. now rewrite Ho.
Qed.

Lemma parse_titan_succeeds_iff_witness :
  _parse_titan_response
    {| body_read :=
         Encoded (PDict [("inputTextTokenCount", PInt 3);
                         ("results", PList [PDict [("tokenCount", PInt 2);
                                                   ("outputText", PStr "Y")];
                                            PDict [("outputText", PStr "W")]])]) |} =
  inr (PStr "Y").
Proof.
  apply (proj2 (parse_titan_succeeds_iff _ (PStr "Y"))).
  exists [("inputTextTokenCount", PInt 3);
          ("results", PList [PDict [("tokenCount", PInt 2); ("outputText", PStr "Y")];
                             PDict [("outputText", PStr "W")]])],
         [("tokenCount", PInt 2); ("outputText", PStr "Y")],
         [PDict [("outputText", PStr "W")]].
  repeat split.
Defined.

(** X9: the Jurassic parser returns a value exactly when the payload is a
    JSON object whose [completions] is a list that starts with an object
    whose [data] is an object having [text]; the value is that text of the
    first completion. *)
Theorem parse_ai21_succeeds_iff (response : InvokeModelResponse) (z : pyval) :
  _parse_ai21_response response = inr z <->
  exists items first rest data,
    body_read response = Encoded (PDict items) /\
    dict_get items "completions" = Some (PList (PDict first :: rest)) /\
    dict_get first "data" = Some (PDict data) /\
    dict_get data "text" = Some z.
Proof.
  unfold _parse_ai21_response. split.
  - destruct (body_read response) as [doc | raw]; cbn; [|discriminate].
    destruct doc; cbn; try discriminate.
    destruct (dict_get items "completions") as [completions|] eqn:Ec; [|discriminate].
    destruct completions as [| | | | s | l | d]; cbn; try discriminate.
    + destruct (seq_pos (String.length s) 0) as [j|];
        [destruct (String.get j s)|]; cbn; discriminate.
    + destruct l as [|first rest]; cbn; [discriminate|].
      destruct first; cbn; try discriminate.
      destruct (dict_get items0 "data") as [data|] eqn:Ed; [|discriminate].
      destruct data; cbn; try discriminate.
      destruct (dict_get items1 "text") as [v|] eqn:Et; [|discriminate].
      intros H; injection H as <-.
      exists items, items0, rest, items1. repeat split; assumption.
  - intros [items [first [rest [data [-> [Hc [Hd Ht]]]]]]]. cbn.
    rewrite Hc. cbn. rewrite Hd. cbn. now rewrite Ht.
Qed.

Lemma parse_ai21_succeeds_iff_witness :
  _parse_ai21_response
    {| body_read :=
         Encoded (PDict [("id", PInt 1234);
                         ("completions",
                          PList [PDict [("data", PDict [("text", PStr "Z")])]])]) |} =
  inr (PStr "Z").
Proof.
  apply (proj2 (parse_ai21_succeeds_iff _ (PStr "Z"))).
  exists [("id", PInt 1234);
          ("completions", PList [PDict [("data", PDict [("text", PStr "Z")])]])],
         [("data", PDict [("text", PStr "Z")])], [], [("text", PStr "Z")].
  repeat split.
Defined.

(** X10: unlike the Anthropic parser, the Titan and Jurassic parsers have
    no fallback for a missing field: on a JSON object without [results],
    respectively without [completions], they raise [KeyError] for that
    key. *)
Theorem parsers_raise_on_missing_list (response : InvokeModelResponse)
    (items : list (string * pyval)) :
  body_read response = Encoded (PDict items) ->
  (dict_get items "results" = None ->
   _parse_titan_response response = inl (KeyError (PStr "results"))) /\
  (dict_get items "completions" = None ->
   _parse_ai21_response response = inl (KeyError (PStr "completions"))).
Proof.
  intros H. unfold _parse_titan_response, _parse_ai21_response.
  rewrite H. cbn. split; intros ->; reflexivity.
Qed.

Lemma parsers_raise_on_missing_list_witness :
  _parse_titan_response
    {| body_read := Encoded (PDict [("message", PStr "throttled")]) |} =
    inl (KeyError (PStr "results")) /\
  _parse_ai21_response
    {| body_read := Encoded (PDict [("message", PStr "throttled")]) |} =
    inl (KeyError (PStr "completions")).
Proof.
  destruct (@parsers_raise_on_missing_list
              {| body_read := Encoded (PDict [("message", PStr "throttled")]) |}
              [("message", PStr "throttled")] eq_refl) as [Ht Hj].
  split; [apply Ht | apply Hj]; reflexivity.
Defined.

(** X11: the fallback "No response" of the Anthropic parser covers a
    missing field only: on a JSON payload that is not an object (a list, a
    string, a number, [null]) the parser raises [AttributeError]. *)
Theorem parse_anthropic_non_object (response : InvokeModelResponse) (doc : pyval) :
  body_read response = Encoded doc ->
  (forall items, doc <> PDict items) ->
  _parse_anthropic_response response =
  inl (AttributeError ("'" ++ type_name doc ++ "' object has no attribute 'get'")).
Proof.
  intros H Hno. unfold _parse_anthropic_response. rewrite H. cbn.
  destruct doc; try reflexivity. exfalso. now apply (Hno items).
Qed.

Lemma parse_anthropic_non_object_witness :
  _parse_anthropic_response
    {| body_read := Encoded (PList [PDict [("completion", PStr "X")]]) |} =
  inl (AttributeError "'list' object has no attribute 'get'").
Proof.
  apply (@parse_anthropic_non_object
           {| body_read := Encoded (PList [PDict [("completion", PStr "X")]]) |}
           (PList [PDict [("completion", PStr "X")]]) eq_refl).
  intros items H. discriminate H.
Defined.

(** ** More on [send_sns_message] *)

Lemma getitem_key_is_Exception (v : pyval) (k : string) (e : exn) :
  getitem_key v k = inl e -> is_Exception e = true.
Proof.
  destruct v; cbn; try (intros H; injection H as <-; reflexivity).
  destruct (dict_get items k); intros H; [discriminate|].
  injection H as <-. reflexivity.
Qed.

(** X12: when the SNS client cannot be created, nothing is published: an
    instance of [Exception] is reported in one line and the result is
    [None]; an exception of a class outside [Exception] reaches the
    caller. *)
Theorem send_sns_message_no_client (boto3 : Boto3)
    (topic_arn message region : string) (e : exn) :
  sns_client boto3 region = inl e ->
  send_sns_message boto3 topic_arn message region =
  if is_Exception e then
    ([Connected "sns" region; Printed [Lit "Error sending message: "; Exc e]],
     inr PNone)
  else ([Connected "sns" region], inl e).
Proof.
  intros H. unfold send_sns_message, boto3_client_sns. rewrite H. cbn.
  destruct (is_Exception e); reflexivity.
Qed.

Lemma send_sns_message_no_client_witness :
  send_sns_message sns_unreachable "arn:aws:sns:eu-central-1:1:myNotify" "Hi" "" =
  ([Connected "sns" "";
    Printed [Lit "Error sending message: ";
             Exc (OtherError "NoRegionError" "You must specify a region.")]],
   inr PNone).
Proof.
  apply (@send_sns_message_no_client sns_unreachable
           "arn:aws:sns:eu-central-1:1:myNotify" "Hi" ""
           (OtherError "NoRegionError" "You must specify a region.")).
  reflexivity.
Defined.

(** X13: when the publish call answers with a response from which
    [MessageId] cannot be read, the message has been handed to SNS and yet
    the caller gets [None] and an error line, as for a failed publish. *)
Theorem send_sns_message_unreadable_answer (boto3 : Boto3)
    (topic_arn message region : string) (sns : SnsClient)
    (response : pyval) (e : exn) :
  let req :=
    {| TopicArn := topic_arn; Message := message; Subject := "SNS Notification" |} in
  sns_client boto3 region = inr sns ->
  publish sns req = inr response ->
  getitem_key response "MessageId" = inl e ->
  send_sns_message boto3 topic_arn message region =
  ([Connected "sns" region; Published req;
    Printed [Lit "Error sending message: "; Exc e]],
   inr PNone).
Proof.
  cbv zeta. intros Hs Hp Hm.
  unfold send_sns_message, boto3_client_sns, sns_publish.
  rewrite Hs. cbn. rewrite Hp. cbn. rewrite Hm. cbn.
  now rewrite (getitem_key_is_Exception _ _ Hm).
Qed.

Lemma send_sns_message_unreadable_answer_witness :
  send_sns_message sns_anonymous "arn:aws:sns:eu-central-1:1:myNotify" "Hi"
    "eu-central-1" =
  ([Connected "sns" "eu-central-1";
    Published {| TopicArn := "arn:aws:sns:eu-central-1:1:myNotify";
                 Message := "Hi";
                 Subject := "SNS Notification" |};
    Printed [Lit "Error sending message: "; Exc (KeyError (PStr "MessageId"))]],
   inr PNone).
Proof.
  refine (@send_sns_message_unreadable_answer sns_anonymous
            "arn:aws:sns:eu-central-1:1:myNotify" "Hi" "eu-central-1"
            {| publish := fun _ => inr (PDict [("ResponseMetadata", PDict [])]) |}
            (PDict [("ResponseMetadata", PDict [])])
            (KeyError (PStr "MessageId")) eq_refl eq_refl eq_refl).
Defined.

(** X14: a result of [send_sns_message] other than [None] means that the
    message was published: the client was created, the publish call
    answered, and the result is that answer, from which [MessageId] could
    be read. *)
Theorem send_sns_message_result_means_published (boto3 : Boto3)
    (topic_arn message region : string) (v : pyval) :
  outcome (send_sns_message boto3 topic_arn message region) = inr v ->
  v <> PNone ->
  exists sns message_id,
    sns_client boto3 region = inr sns /\
    publish sns {| TopicArn := topic_arn;
                   Message := message;
                   Subject := "SNS Notification" |} = inr v /\
    getitem_key v "MessageId" = inr message_id.
Proof.
  unfold send_sns_message, boto3_client_sns, sns_publish.
  destruct (sns_client boto3 region) as [e | sns]; cbn.
  - destruct (is_Exception e); cbn; [|discriminate].
    intros H Hv. injection H as <-. now contradiction Hv.
  - destruct (publish sns _) as [e | response] eqn:Ep; cbn.
    + destruct (is_Exception e); cbn; [|discriminate].
      intros H Hv. injection H as <-. now contradiction Hv.
    + destruct (getitem_key response "MessageId") as [e | message_id] eqn:Em; cbn.
      * destruct (is_Exception e); cbn; [|discriminate].
        intros H Hv. injection H as <-. now contradiction Hv.
      * intros H _. injection H as <-.
        exists sns, message_id. repeat split; assumption.
Qed.

Lemma send_sns_message_result_means_published_witness :
  exists sns message_id,
    sns_client sns_accepting "eu-central-1" = inr sns /\
    publish sns {| TopicArn := "arn:aws:sns:eu-central-1:1:myNotify";
                   Message := "Hi";
                   Subject := "SNS Notification" |} =
      inr (PDict [("MessageId", PStr "m-1")]) /\
    getitem_key (PDict [("MessageId", PStr "m-1")]) "MessageId" = inr message_id.
Proof.
  apply (@send_sns_message_result_means_published sns_accepting
           "arn:aws:sns:eu-central-1:1:myNotify" "Hi" "eu-central-1"
           (PDict [("MessageId", PStr "m-1")])).
  - reflexivity.
  - discriminate.
Defined.

(** X15: [send_sns_message] makes one publish request when the SNS client
    can be created and none otherwise; the request carries the caller's
    topic and message and the subject "SNS Notification".  It is never
    repeated, whatever the answer. *)
Theorem send_sns_message_publishes_once (boto3 : Boto3)
    (topic_arn message region : string) :
  published (trace (send_sns_message boto3 topic_arn message region)) =
  match sns_client boto3 region with
  | inl _ => []
  | inr _ =>
      [{| TopicArn := topic_arn; Message := message; Subject := "SNS Notification" |}]
  end.
Proof.
  unfold send_sns_message, boto3_client_sns, sns_publish.
  destruct (sns_client boto3 region) as [e | sns]; cbn;
    [destruct (is_Exception e); reflexivity|].
  destruct (publish sns _) as [e | response]; cbn;
    [destruct (is_Exception e); reflexivity|].
  destruct (getitem_key response "MessageId") as [e | message_id]; cbn;
    [destruct (is_Exception e)|]; reflexivity.
Qed.

(** ** Client creation *)

(** X16: when [boto3.client] fails, [_create_client] raises the same
    exception again, after one line for an instance of [Exception]:
    "AWS credentials not found" for [NoCredentialsError], the generic line
    with the exception for any other class derived from [Exception]; an
    exception outside [Exception] passes with no line.  The failure is
    never absorbed. *)
Theorem create_client_reraises (boto3 : Boto3Bedrock) (region : string) (e : exn) :
  bedrock_runtime_client boto3 region = inl e ->
  _create_client boto3 region =
  (Connected "bedrock-runtime" region ::
     (if is_NoCredentialsError e then
        [Printed [Lit "❌ AWS credentials not found"]]
      else if is_Exception e then
        [Printed [Lit "❌ Error creating Bedrock client: "; Exc e]]
      else []),
   inl e).
Proof.
  intros H. unfold _create_client, boto3_client_bedrock_runtime.
  rewrite H. cbn.
  destruct (is_NoCredentialsError e); [reflexivity|].
  destruct (is_Exception e); reflexivity.
Qed.

Lemma create_client_reraises_witness :
  _create_client no_credentials "eu-central-1" =
  ([Connected "bedrock-runtime" "eu-central-1";
    Printed [Lit "❌ AWS credentials not found"]],
   inl NoCredentialsError) /\
  _create_client catalog_denied "eu-central-1" =
  ([Connected "bedrock-runtime" "eu-central-1";
    Printed [Lit "❌ Error creating Bedrock client: ";
             Exc (OtherError "UnknownServiceError" "bedrock-runtime")]],
   inl (OtherError "UnknownServiceError" "bedrock-runtime")).
Proof.
  split.
  - exact (@create_client_reraises no_credentials "eu-central-1"
             NoCredentialsError eq_refl).
  - exact (@create_client_reraises catalog_denied "eu-central-1"
             (OtherError "UnknownServiceError" "bedrock-runtime") eq_refl).
Defined.

(** X17: the constructor yields a connector only when the runtime client
    was created: it then holds the region as given and that client, and
    one success line was printed; when the creation fails the constructor
    raises the exception of [boto3.client] and yields no connector. *)
Theorem init_outcomes (boto3 : Boto3Bedrock) (region : string) :
  (forall c,
     bedrock_runtime_client boto3 region = inr c ->
     __init__ boto3 region =
     ([Connected "bedrock-runtime" region;
       Printed [Lit "✅ Bedrock client created successfully"]],
      inr {| region_name := region; client := c |})) /\
  (forall e,
     bedrock_runtime_client boto3 region = inl e ->
     outcome (__init__ boto3 region) = inl e) /\
  (forall self,
     outcome (__init__ boto3 region) = inr self ->
     region_name self = region /\
     bedrock_runtime_client boto3 region = inr (client self)).
Proof.
  unfold __init__, _create_client, boto3_client_bedrock_runtime.
  split; [|split].
  - intros c H. rewrite H. reflexivity.
  - intros e H. rewrite H. cbn.
    destruct (is_NoCredentialsError e); [reflexivity|].
    destruct (is_Exception e); reflexivity.
  - intros self. destruct (bedrock_runtime_client boto3 region) as [e | c]; cbn.
    + destruct (is_NoCredentialsError e); [discriminate|].
      destruct (is_Exception e); discriminate.
    + intros H. injection H as <-. split; reflexivity.
Qed.

Lemma init_outcomes_witness :
  __init__ (catalog_of PNone) "us-east-1" =
  ([Connected "bedrock-runtime" "us-east-1";
    Printed [Lit "✅ Bedrock client created successfully"]],
   inr {| region_name := "us-east-1";
          client := fun _ => inl NoCredentialsError |}) /\
  outcome (__init__ no_credentials "us-east-1") = inl NoCredentialsError.
Proof.
  split.
  - exact (proj1 (init_outcomes (catalog_of PNone) "us-east-1") _ eq_refl).
  - exact (proj1 (proj2 (init_outcomes no_credentials "us-east-1")) _ eq_refl).
Defined.

(** ** The model catalog *)

Lemma printed_lines_app (t1 t2 : list event) :
  printed_lines (t1 ++ t2) = (printed_lines t1 ++ printed_lines t2)%list.
Proof.
  induction t1 as [|ev t1 IH]; [reflexivity|].
  destruct ev; cbn; now rewrite IH.
Qed.

Lemma print_model_summary_printable (model : pyval) :
  printable_summary model ->
  exists t,
    print_model_summary model = (t, inr tt) /\
    List.length (printed_lines t) = 6%nat.
Proof.
  intros [items [model_id [model_name [-> [Hi Hn]]]]].
  unfold print_model_summary. cbn. rewrite Hi. cbn. rewrite Hn. cbn.
  destruct (dict_get items "providerName"); cbn;
    destruct (dict_get items "inputModalities"); cbn;
    destruct (dict_get items "outputModalities"); cbn;
    eexists; split; reflexivity.
Qed.

Lemma print_model_summary_without_modelId (items : list (string * pyval)) :
  dict_get items "modelId" = None ->
  print_model_summary (PDict items) = ([], inl (KeyError (PStr "modelId"))).
Proof.
  intros H. unfold print_model_summary. cbn. now rewrite H.
Qed.

Lemma for_each_printable (models : list pyval) :
  Forall printable_summary models ->
  exists t,
    for_each models print_model_summary = (t, inr tt) /\
    List.length (printed_lines t) = (6 * List.length models)%nat.
Proof.
  induction 1 as [|model models Hm _ [t [IHe IHl]]]; cbn [for_each].
  - exists []. split; reflexivity.
  - destruct (print_model_summary_printable Hm) as [t1 [E1 L1]].
    exists (t1 ++ t)%list. rewrite E1. cbn. rewrite IHe. split; [reflexivity|].
    rewrite printed_lines_app, length_app, L1, IHl. cbn [List.length]. lia.
Qed.

Lemma for_each_stops_without_modelId (good rest : list pyval)
    (items : list (string * pyval)) :
  Forall printable_summary good ->
  dict_get items "modelId" = None ->
  exists t,
    for_each (good ++ PDict items :: rest) print_model_summary =
      (t, inl (KeyError (PStr "modelId"))) /\
    List.length (printed_lines t) = (6 * List.length good)%nat.
Proof.
  intros Hg Hi.
  induction Hg as [|model good Hm _ [t [IHe IHl]]]; cbn [for_each app].
  - exists []. rewrite (print_model_summary_without_modelId _ Hi).
    split; reflexivity.
  - destruct (print_model_summary_printable Hm) as [t1 [E1 L1]].
    exists (t1 ++ t)%list. rewrite E1. cbn. rewrite IHe. split; [reflexivity|].
    rewrite printed_lines_app, length_app, L1, IHl. cbn [List.length]. lia.
Qed.

(** X18: when the catalog client cannot be created, or its listing call
    fails, [list_foundation_models] absorbs a [ClientError] (one error
    line, result [None]) and lets an exception of any other class reach
    the caller; in both cases only the region line was printed before. *)
Theorem list_foundation_models_failure (boto3 : Boto3Bedrock)
    (self : BedrockConnector) (e : exn) :
  (bedrock_client boto3 (region_name self) = inl e \/
   exists c,
     bedrock_client boto3 (region_name self) = inr c /\
     catalog_list_foundation_models c = inl e) ->
  list_foundation_models boto3 self =
  if is_ClientError e then
    ([Printed [Lit "Region : "; Lit " "; Val (PStr (region_name self))];
      Connected "bedrock" (region_name self);
      Printed [Lit "Error listing models: "; Exc e]],
     inr PNone)
  else
    ([Printed [Lit "Region : "; Lit " "; Val (PStr (region_name self))];
      Connected "bedrock" (region_name self)],
     inl e).
Proof.
  unfold list_foundation_models, boto3_client_bedrock.
  intros [H | [c [Hc Hl]]].
  - rewrite H. cbn. destruct (is_ClientError e); reflexivity.
  - rewrite Hc. cbn. rewrite Hl. cbn. destruct (is_ClientError e); reflexivity.
Qed.

Lemma list_foundation_models_failure_witness :
  list_foundation_models catalog_denied offline =
  ([Printed [Lit "Region : "; Lit " "; Val (PStr "eu-central-1")];
    Connected "bedrock" "eu-central-1";
    Printed [Lit "Error listing models: "; Exc (ClientError "AccessDeniedException")]],
   inr PNone) /\
  list_foundation_models no_credentials offline =
  ([Printed [Lit "Region : "; Lit " "; Val (PStr "eu-central-1")];
    Connected "bedrock" "eu-central-1"],
   inl NoCredentialsError).
Proof.
  split.
  - apply (@list_foundation_models_failure catalog_denied offline
             (ClientError "AccessDeniedException")).
    right. eexists. split; reflexivity.
  - apply (@list_foundation_models_failure no_credentials offline NoCredentialsError).
    left. reflexivity.
Defined.

(** X19: when the catalog answers with an object that has no
    [modelSummaries], or an empty one, [list_foundation_models] prints the
    region line and the two header lines, no model, and returns the answer
    as it is. *)
Theorem list_foundation_models_no_summaries (boto3 : Boto3Bedrock)
    (self : BedrockConnector) (c : CatalogClient)
    (items : list (string * pyval)) :
  bedrock_client boto3 (region_name self) = inr c ->
  catalog_list_foundation_models c = inr (PDict items) ->
  (dict_get items "modelSummaries" = None \/
   dict_get items "modelSummaries" = Some (PList [])) ->
  list_foundation_models boto3 self =
  ([Printed [Lit "Region : "; Lit " "; Val (PStr (region_name self))];
    Connected "bedrock" (region_name self);
    Printed [Lit "Available Foundation Models:"];
    Printed [Lit "--------------------------------------------------"]],
   inr (PDict items)).
Proof.
  intros Hc Hl Hs. unfold list_foundation_models, boto3_client_bedrock.
  rewrite Hc. cbn. rewrite Hl. cbn.
  destruct Hs as [-> | ->]; reflexivity.
Qed.

Lemma list_foundation_models_no_summaries_witness :
  list_foundation_models (catalog_of (PDict [("nextToken", PNone)])) offline =
  ([Printed [Lit "Region : "; Lit " "; Val (PStr "eu-central-1")];
    Connected "bedrock" "eu-central-1";
    Printed [Lit "Available Foundation Models:"];
    Printed [Lit "--------------------------------------------------"]],
   inr (PDict [("nextToken", PNone)])).
Proof.
  apply (@list_foundation_models_no_summaries
           (catalog_of (PDict [("nextToken", PNone)])) offline
           {| catalog_list_foundation_models := inr (PDict [("nextToken", PNone)]) |}
           [("nextToken", PNone)] eq_refl eq_refl).
  left. reflexivity.
Defined.

(** X20: when every model summary of the answer is an object with
    [modelId] and [modelName], [list_foundation_models] returns the answer
    unchanged and prints three lines and six more per model; the optional
    fields [providerName], [inputModalities] and [outputModalities] may be
    missing. *)
Theorem list_foundation_models_lists_all (boto3 : Boto3Bedrock)
    (self : BedrockConnector) (c : CatalogClient)
    (items : list (string * pyval)) (models : list pyval) :
  bedrock_client boto3 (region_name self) = inr c ->
  catalog_list_foundation_models c = inr (PDict items) ->
  dict_get items "modelSummaries" = Some (PList models) ->
  Forall printable_summary models ->
  outcome (list_foundation_models boto3 self) = inr (PDict items) /\
  List.length (printed_lines (trace (list_foundation_models boto3 self))) =
    (3 + 6 * List.length models)%nat.
Proof.
  intros Hc Hl Hs Hm. unfold list_foundation_models, boto3_client_bedrock.
  rewrite Hc. cbn. rewrite Hl. cbn. rewrite Hs. cbn.
  destruct (for_each_printable Hm) as [t [-> Hlen]]. cbn.
  split; [reflexivity|].
  rewrite app_nil_r, Hlen. reflexivity.
Qed.

Lemma list_foundation_models_lists_all_witness :
  outcome (list_foundation_models
             (catalog_of (PDict [("modelSummaries",
                PList [PDict [("modelId", PStr "amazon.titan-text-express-v1");
                              ("modelName", PStr "Titan Text G1 - Express")]])]))
             offline) =
    inr (PDict [("modelSummaries",
           PList [PDict [("modelId", PStr "amazon.titan-text-express-v1");
                         ("modelName", PStr "Titan Text G1 - Express")]])]) /\
  List.length (printed_lines (trace (list_foundation_models
             (catalog_of (PDict [("modelSummaries",
                PList [PDict [("modelId", PStr "amazon.titan-text-express-v1");
                              ("modelName", PStr "Titan Text G1 - Express")]])]))
             offline))) = 9%nat.
Proof.
  apply (@list_foundation_models_lists_all
           (catalog_of (PDict [("modelSummaries",
              PList [PDict [("modelId", PStr "amazon.titan-text-express-v1");
                            ("modelName", PStr "Titan Text G1 - Express")]])]))
           offline
           {| catalog_list_foundation_models :=
                inr (PDict [("modelSummaries",
                  PList [PDict [("modelId", PStr "amazon.titan-text-express-v1");
                                ("modelName", PStr "Titan Text G1 - Express")]])]) |}
           [("modelSummaries",
             PList [PDict [("modelId", PStr "amazon.titan-text-express-v1");
                           ("modelName", PStr "Titan Text G1 - Express")]])]
           [PDict [("modelId", PStr "amazon.titan-text-express-v1");
                   ("modelName", PStr "Titan Text G1 - Express")]]
           eq_refl eq_refl eq_refl).
  constructor; [|constructor].
  exists [("modelId", PStr "amazon.titan-text-express-v1");
          ("modelName", PStr "Titan Text G1 - Express")],
         (PStr "amazon.titan-text-express-v1"), (PStr "Titan Text G1 - Express").
  repeat split.
Defined.

(** X21: a summary without [modelId] stops the listing: the models before
    it have been printed, six lines each, then [KeyError] for "modelId"
    reaches the caller; the [except ClientError] clause does not take it
    and the answer is not returned. *)
Theorem list_foundation_models_stops_without_modelId (boto3 : Boto3Bedrock)
    (self : BedrockConnector) (c : CatalogClient)
    (items bad : list (string * pyval)) (good rest : list pyval) :
  bedrock_client boto3 (region_name self) = inr c ->
  catalog_list_foundation_models c = inr (PDict items) ->
  dict_get items "modelSummaries" = Some (PList (good ++ PDict bad :: rest)) ->
  Forall printable_summary good ->
  dict_get bad "modelId" = None ->
  outcome (list_foundation_models boto3 self) = inl (KeyError (PStr "modelId")) /\
  List.length (printed_lines (trace (list_foundation_models boto3 self))) =
    (3 + 6 * List.length good)%nat.
Proof.
  intros Hc Hl Hs Hg Hb. unfold list_foundation_models, boto3_client_bedrock.
  rewrite Hc. cbn. rewrite Hl. cbn. rewrite Hs. cbn.
  destruct (@for_each_stops_without_modelId good rest bad Hg Hb) as [t [-> Hlen]]. cbn.
  split; [reflexivity|].
  rewrite Hlen. reflexivity.
Qed.

Lemma list_foundation_models_stops_without_modelId_witness :
  outcome (list_foundation_models
             (catalog_of (PDict [("modelSummaries",
                PList [PDict [("modelName", PStr "Titan")]])]))
             offline) =
    inl (KeyError (PStr "modelId")) /\
  List.length (printed_lines (trace (list_foundation_models
             (catalog_of (PDict [("modelSummaries",
                PList [PDict [("modelName", PStr "Titan")]])]))
             offline))) = 3%nat.
Proof.
  apply (@list_foundation_models_stops_without_modelId
           (catalog_of (PDict [("modelSummaries",
              PList [PDict [("modelName", PStr "Titan")]])]))
           offline
           {| catalog_list_foundation_models :=
                inr (PDict [("modelSummaries",
                  PList [PDict [("modelName", PStr "Titan")]])]) |}
           [("modelSummaries", PList [PDict [("modelName", PStr "Titan")]])]
           [("modelName", PStr "Titan")] [] []
           eq_refl eq_refl eq_refl).
  - constructor.
  - reflexivity.
Defined.
